(** * marksense-proof-svc: the proof relay of [src/index.ts]

    A shallow embedding of the Express application of [src/index.ts]: the
    signer ([createSignature]), the file cache ([generateCacheKey],
    [readCache], [writeCache]), the proof requester ([generateProof],
    [generateProofWithoutContext]) and the four route handlers. The second
    copy of the application, [src/unnamed/part_000], is embedded in the
    module [Earlier].

    Everything the program reaches through a library (Node's [crypto], [fs]
    and [JSON], [axios], the Reclaim prover and SDK, the clock, the process
    environment) is a field of the record [Host]; the program itself is
    written in a state-and-exception monad over the part of the world it
    can change or observe.

    The file has four parts: the program; the vocabulary of the properties
    (runs, the proof flow, the outcomes of the routes, signed requests, a
    concrete host to run the program on); lemmas about runs of each
    function; the properties C1 to C10. *)

From Stdlib Require Import ZArith String Ascii List Lia.
From Stdlib.Strings Require Import Byte.
From stdpp Require Import base gmap strings list pretty.

Open Scope string_scope.
Open Scope Z_scope.

Set Warnings "-register-all".

(** ** JavaScript values *)

(** The values that flow through the handlers: JSON data (request bodies,
    replies of the exchange, proofs), [undefined], and [Error] instances.
    Numbers are the integers; JSON numbers with a fraction do not occur in
    the data the handlers inspect. *)
Inductive jsval : Type :=
  | JUndefined
  | JNull
  | JBool (b : bool)
  | JNum (n : Z)
  | JStr (s : string)
  | JArr (items : list jsval)
  | JObj (fields : list (string * jsval))
  | JError (name message : string).

(** The double quote, for the string literals of the source that hold one. *)
Definition dq : string := String "034"%char EmptyString.

(** [ToString], as applied by [+] on a string and by template literals.
    An array prints its items separated by commas, [null] and [undefined]
    items as nothing; a plain object prints as [[object Object]]; an
    [Error] as its name and message. Integers print in decimal, which is
    what JavaScript does for the integers a number holds exactly. The
    conversion of an object that hides [toString] behind a property of
    its own throws in JavaScript; this function does not show that. *)
Fixpoint ToString (v : jsval) : string :=
  match v with
  | JUndefined => "undefined"
  | JNull => "null"
  | JBool true => "true"
  | JBool false => "false"
  | JNum n => pretty n
  | JStr s => s
  | JArr items =>
      let item (x : jsval) : string :=
        match x with
        | JUndefined | JNull => EmptyString
        | _ => ToString x
        end in
      (fix join (xs : list jsval) : string :=
         match xs with
         | [] => EmptyString
         | [x] => item x
         | x :: rest => item x +:+ "," +:+ join rest
         end) items
  | JObj _ => "[object Object]"
  | JError name message =>
      match name, message with
      | EmptyString, _ => message
      | _, EmptyString => name
      | _, _ => name +:+ ": " +:+ message
      end
  end.

(** [ToBoolean]: what [if (v)] and [!v] test. *)
Definition truthy (v : jsval) : bool :=
  match v with
  | JUndefined | JNull | JBool false | JNum 0 | JStr EmptyString => false
  | _ => true
  end.

Fixpoint assoc (k : string) (fields : list (string * jsval)) : option jsval :=
  match fields with
  | [] => None
  | (k', v) :: rest => if String.eqb k k' then Some v else assoc k rest
  end.

(** ** Completions and the handler monad *)

Inductive completion (A : Type) : Type :=
  | Normal (a : A)
  | Throw (e : jsval).
Arguments Normal {A} a.
Arguments Throw {A} e.

Inductive MatchType := regex | contains.

(** One entry of [responseMatches]. *)
Record Match := { m_type : MatchType; m_value : string }.

(** The third argument of [zkFetch]: the private options. *)
Record SecretOptions := {
  so_headers : list (string * jsval);
  so_responseMatches : option (list Match)
}.

(** One call of [reclaimClient.zkFetch(url, options, secretOptions,
    retries, retryInterval)]; an argument the call site leaves out is
    [None]. *)
Record ZkCall := {
  zk_url : string;
  zk_method : string;
  zk_secretOptions : option SecretOptions;
  zk_retries : option Z;
  zk_retryInterval : option Z
}.

(** One call of [axios.get(url, config)]. *)
Record AxiosCall := {
  ax_url : string;
  ax_headers : option (list (string * jsval))
}.

(** What a handler did with [res]. *)
Inductive Response :=
  | Json (status : Z) (body : jsval)
  | Send (status : Z) (body : jsval)
  | Render (view : string) (locals : jsval).

(** The world as the program sees and changes it: the files of the cache
    directory by name, the calls made so far to the prover and to axios,
    the number of clock readings, the console, and the response of the
    request being served. *)
Record State := {
  files : gmap string string;
  zk_log : list ZkCall;
  axios_log : list AxiosCall;
  clock_reads : nat;
  console : list jsval;
  response : option Response
}.

(** The libraries and services behind the program. The replies of the
    prover and of axios may depend on every earlier call; the clock on how
    often it was read. *)
Record Host := {
  crypto_md5 : string -> list byte;
  crypto_hmac_sha256 : string -> string -> list byte;
  JSON_parse : string -> completion jsval;
  JSON_stringify : jsval -> string;
  clock : nat -> Z;
  axios_reply : list AxiosCall -> AxiosCall -> completion jsval;
  zkFetch_reply : list ZkCall -> ZkCall -> completion jsval;
  verifySignedProof_reply : jsval -> completion jsval;
  transformForOnchain_reply : jsval -> completion jsval;
  API_KEY : jsval;
  API_SECRET : jsval
}.

Definition M (A : Type) : Type := State -> completion A * State.

Definition ret {A : Type} (a : A) : M A := fun s => (Normal a, s).

Definition throw {A : Type} (e : jsval) : M A := fun s => (Throw e, s).

Definition bind {A B : Type} (m : M A) (k : A -> M B) : M B :=
  fun s =>
    match m s with
    | (Normal a, s') => k a s'
    | (Throw e, s') => (Throw e, s')
    end.

(** [try { m } catch (e) { h e }]: the handler runs in the state the body
    left behind. *)
Definition try_catch {A : Type} (m : M A) (h : jsval -> M A) : M A :=
  fun s =>
    match m s with
    | (Normal a, s') => (Normal a, s')
    | (Throw e, s') => h e s'
    end.

(** [try { x = m } catch (e) { return h e }], then [k x]: a [catch] block
    that returns from the function. *)
Definition try_or_return {A B : Type} (m : M A) (h : jsval -> M B)
    (k : A -> M B) : M B :=
  fun s =>
    match m s with
    | (Normal a, s') => k a s'
    | (Throw e, s') => h e s'
    end.

Declare Scope js_scope.
Delimit Scope js_scope with js.
Notation "x <- m ;; k" := (bind m (fun x => k))
  (at level 100, m at next level, right associativity) : js_scope.
Notation "m ;;; k" := (bind m (fun _ => k))
  (at level 100, right associativity) : js_scope.
Open Scope js_scope.

(** ** State updates *)

Definition set_files (f : gmap string string) (s : State) : State :=
  {| files := f; zk_log := zk_log s; axios_log := axios_log s;
     clock_reads := clock_reads s; console := console s;
     response := response s |}.

Definition set_zk_log (l : list ZkCall) (s : State) : State :=
  {| files := files s; zk_log := l; axios_log := axios_log s;
     clock_reads := clock_reads s; console := console s;
     response := response s |}.

Definition set_axios_log (l : list AxiosCall) (s : State) : State :=
  {| files := files s; zk_log := zk_log s; axios_log := l;
     clock_reads := clock_reads s; console := console s;
     response := response s |}.

Definition set_clock_reads (n : nat) (s : State) : State :=
  {| files := files s; zk_log := zk_log s; axios_log := axios_log s;
     clock_reads := n; console := console s;
     response := response s |}.

Definition set_console (c : list jsval) (s : State) : State :=
  {| files := files s; zk_log := zk_log s; axios_log := axios_log s;
     clock_reads := clock_reads s; console := c;
     response := response s |}.

Definition set_response (r : option Response) (s : State) : State :=
  {| files := files s; zk_log := zk_log s; axios_log := axios_log s;
     clock_reads := clock_reads s; console := console s;
     response := r |}.

(** ** The libraries, as the program calls them *)

(** [Buffer.toString('hex')], the encoding behind [digest('hex')]: two
    lowercase hexadecimal digits per byte, high nibble first. *)
Definition hex_digit (n : N) : ascii :=
  match n with
  | 0 => "0" | 1 => "1" | 2 => "2" | 3 => "3" | 4 => "4" | 5 => "5"
  | 6 => "6" | 7 => "7" | 8 => "8" | 9 => "9" | 10 => "a" | 11 => "b"
  | 12 => "c" | 13 => "d" | 14 => "e" | _ => "f"
  end%N%char.

Definition hex_byte (b : byte) : string :=
  let n := Byte.to_N b in
  String (hex_digit (n / 16)) (String (hex_digit (n mod 16)) EmptyString).

Fixpoint hex (bytes : list byte) : string :=
  match bytes with
  | [] => EmptyString
  | b :: rest => hex_byte b +:+ hex rest
  end.

(** [v.k] for a data property [k] (the handlers read [data] and
    [serverTime]). Reading a property of [undefined] or [null] throws a
    [TypeError]; a value without the property gives [undefined]. *)
Definition get_prop (v : jsval) (k : string) : M jsval :=
  match v with
  | JUndefined | JNull =>
      throw (JError "TypeError"
               ("Cannot read properties of " +:+ ToString v +:+
                " (reading '" +:+ k +:+ "')"))
  | JObj fields =>
      ret (match assoc k fields with Some x => x | None => JUndefined end)
  | JError name message =>
      ret (if String.eqb k "message" then JStr message
           else if String.eqb k "name" then JStr name
           else JUndefined)
  | _ => ret JUndefined
  end.

Definition console_log (v : jsval) : M unit :=
  fun s => (Normal tt, set_console (console s ++ [v]) s).

(** [res.status(c).json(v)], [res.status(c).send(v)] and [res.render]:
    each sends the response; Express refuses a second one. *)
Definition respond (r : Response) : M jsval :=
  fun s =>
    match response s with
    | None => (Normal JUndefined, set_response (Some r) s)
    | Some _ =>
        (Throw (JError "Error"
                  "Cannot set headers after they are sent to the client"), s)
    end.

Section Program.

Variable H : Host.

(** [Date.now()]. *)
Definition Date_now : M Z :=
  fun s => (Normal (clock H (clock_reads s)),
            set_clock_reads (S (clock_reads s)) s).

(** [await axios.get(url, config)]: the response object, or a throw. *)
Definition axios_get (url : string)
    (headers : option (list (string * jsval))) : M jsval :=
  fun s =>
    let call := {| ax_url := url; ax_headers := headers |} in
    (axios_reply H (axios_log s) call,
     set_axios_log (axios_log s ++ [call]) s).

(** [await reclaimClient.zkFetch(...)]: a proof, [undefined], or a throw. *)
Definition zkFetch (url method : string)
    (secretOptions : option SecretOptions)
    (retries retryInterval : option Z) : M jsval :=
  fun s =>
    let call := {| zk_url := url; zk_method := method;
                   zk_secretOptions := secretOptions;
                   zk_retries := retries;
                   zk_retryInterval := retryInterval |} in
    (zkFetch_reply H (zk_log s) call, set_zk_log (zk_log s ++ [call]) s).

(** [await Reclaim.verifySignedProof(proof)]. *)
Definition verifySignedProof (proof : jsval) : M jsval :=
  fun s => (verifySignedProof_reply H proof, s).

(** [await Reclaim.transformForOnchain(proof)]. *)
Definition transformForOnchain (proof : jsval) : M jsval :=
  fun s => (transformForOnchain_reply H proof, s).

(** ** src/index.ts *)

Inductive Result :=
  | Success (data : jsval)
  | Failure (error : string).

(** The object a [Result] is at run time. *)
Definition Result_obj (r : Result) : jsval :=
  match r with
  | Success data => JObj [("success", JBool true); ("data", data)]
  | Failure error => JObj [("success", JBool false); ("error", JStr error)]
  end.

(** [generateCacheKey], lines 41-44:
    [crypto.createHash('md5').update(query).digest('hex') + '.json']. *)
Definition generateCacheKey (apiKey symbol orderId : jsval) : string :=
  let query :=
    EmptyString +:+ ToString apiKey +:+ ToString symbol +:+ ToString orderId in
  hex (crypto_md5 H query) +:+ ".json".

(** [readCache], lines 46-53. The files of [cacheDir] are addressed by
    their name, which for the names the program uses, the keys of
    [generateCacheKey], is what [path.join(cacheDir, name)] does. *)
Definition readCache (cacheFile : string) : M jsval :=
  fun s =>
    match files s !! cacheFile with
    | Some data => (JSON_parse H data, s)
    | None => (Normal JNull, s)
    end.

(** [writeCache], lines 55-61. *)
Definition writeCache (cacheFile : string) (data : jsval) : M unit :=
  cachedAt <- Date_now ;;
  fun s =>
    (Normal tt,
     set_files
       (<[cacheFile :=
            JSON_stringify H
              (JObj [("data", data); ("cachedAt", JNum cachedAt)])]>
          (files s)) s).

(** [createSignature], lines 64-66:
    [crypto.createHmac('sha256', secret).update(queryString).digest('hex')].
    [createHmac] throws a [TypeError] for a key that is no string. *)
Definition createSignature (queryString : string) (secret : jsval)
    : M string :=
  match secret with
  | JStr key => ret (hex (crypto_hmac_sha256 H key queryString))
  | _ =>
      throw (JError "TypeError"
               ("The " +:+ dq +:+ "key" +:+ dq +:+
                " argument must be of type string. Received " +:+
                ToString secret))
  end.

(** The message the [catch] blocks of the proof requester compute:
    [err.message] if [err instanceof Error], else [String(err)]. *)
Definition errorMessage_of (err : jsval) : string :=
  match err with
  | JError _ message => message
  | _ => ToString err
  end.

(** [generateProof], lines 68-117. *)
Definition generateProof (url : string) (matches : list Match)
    (apiKey : jsval) : M Result :=
  try_catch
    (proof <- zkFetch url "GET"
                (Some {| so_headers := [("X-MBX-APIKEY", apiKey)];
                         so_responseMatches := Some matches |})
                (Some 3) (Some 5000) ;;
     if negb (truthy proof) then
       ret (Failure "Failed to generate proof")
     else
       isValid <- verifySignedProof proof ;;
       if negb (truthy isValid) then
         ret (Failure "Proof is invalid")
       else
         proofData <- transformForOnchain proof ;;
         ret (Success
                (JObj [("transformedProof", proofData); ("proof", proof)])))
    (fun err =>
       console_log err ;;;
       ret (Failure (errorMessage_of err))).

(** [generateProofWithoutContext], lines 119-165. *)
Definition generateProofWithoutContext (url : string) (apiKey : jsval)
    : M Result :=
  try_catch
    (proof <- zkFetch url "GET"
                (Some {| so_headers := [("X-MBX-APIKEY", apiKey)];
                         so_responseMatches := None |})
                None None ;;
     if negb (truthy proof) then
       ret (Failure "Failed to generate proof")
     else
       isValid <- verifySignedProof proof ;;
       if negb (truthy isValid) then
         ret (Failure "Proof is invalid")
       else
         proofData <- transformForOnchain proof ;;
         ret (Success
                (JObj [("transformedProof", proofData); ("proof", proof)])))
    (fun err =>
       console_log err ;;;
       ret (Failure (errorMessage_of err))).

(** An Express request: the parsed query string and the JSON body. With
    [express.json()] installed, [req.body] is an object, empty when the
    request carries no JSON. *)
Record Request := {
  query : list (string * jsval);
  body : list (string * jsval)
}.

(** [o.k] on an object given by its fields. *)
Definition field (fields : list (string * jsval)) (k : string) : jsval :=
  match assoc k fields with
  | Some v => v
  | None => JUndefined
  end.

(** [app.get('/')], lines 167-201. Each branch ends in [return res...];
    the value returned is [res], which Express drops: it is [undefined]
    here. *)
Definition get_root (req : Request) : M jsval :=
  let endpoint := "/fapi/v1/userTrades" in
  let serverTimeEndpoint := "/fapi/v1/time" in
  now <- Date_now ;;
  try_or_return
    (timeResp <- axios_get
                   ("https://fapi.binance.com" +:+ serverTimeEndpoint)
                   None ;;
     data <- get_prop timeResp "data" ;;
     get_prop data "serverTime")
    (fun error => respond (Json 500 (JObj [("error", error)])))
    (fun servTime =>
       let timestamp := servTime in
       let queryString :=
         "timestamp=" +:+ ToString timestamp +:+
         "&symbol=" +:+ ToString (field (query req) "symbol") +:+
         "&recvWindow=60000" in
       signature <- createSignature queryString (API_SECRET H) ;;
       try_catch
         (resp <- axios_get
                    ("https://fapi.binance.com" +:+ endpoint +:+ "?" +:+
                     queryString +:+ "&signature=" +:+ signature)
                    (Some [("X-MBX-APIKEY", API_KEY H)]) ;;
          data <- get_prop resp "data" ;;
          console_log (JStr (JSON_stringify H data)) ;;;
          respond (Render "trades" (JObj [("trades", data)])))
         (fun error =>
            console_log error ;;;
            respond (Json 500 (JObj [("error", error)])))).

(** [app.post('/generateUSDMTradeProof')], lines 203-252. *)
Definition generateUSDMTradeProof (req : Request) : M jsval :=
  let cacheKey :=
    generateCacheKey (field (body req) "api_key")
      (field (body req) "symbol") (field (body req) "order_id") in
  cache <- readCache cacheKey ;;
  if truthy cache then
    data <- get_prop cache "data" ;;
    respond (Json 200 data)
  else
    try_catch
      (let endpoint := "/fapi/v1/userTrades" in
       let serverTimeEndpoint := "/fapi/v1/time" in
       now <- Date_now ;;
       servTime <- try_catch
                     (timeResp <- axios_get
                                    ("https://fapi.binance.com" +:+
                                     serverTimeEndpoint) None ;;
                      data <- get_prop timeResp "data" ;;
                      get_prop data "serverTime")
                     (fun _ => ret (JNum now)) ;;
       let timestamp := servTime in
       let queryString :=
         "timestamp=" +:+ ToString timestamp +:+
         "&symbol=" +:+ ToString (field (body req) "symbol") +:+
         "&orderId=" +:+ ToString (field (body req) "order_id") +:+
         "&recvWindow=60000" in
       signature <- createSignature queryString
                      (field (body req) "api_secret") ;;
       result <- generateProof
                   ("https://fapi.binance.com" +:+ endpoint +:+ "?" +:+
                    queryString +:+ "&signature=" +:+ signature)
                   [ {| m_type := regex;
                        m_value := dq +:+ "orderId" +:+ dq +:+
                                   ":\s*(?<orderId>[\d.]+)" |} ]
                   (field (body req) "api_key") ;;
       match result with
       | Failure error =>
           console_log (Result_obj result) ;;;
           respond (Send 400 (JStr error))
       | Success data =>
           writeCache cacheKey data ;;;
           respond (Json 200 data)
       end)
      (fun e =>
         console_log e ;;;
         respond (Send 500 e)).

(** [app.post('/generateAssetProof')], lines 254-281. *)
Definition generateAssetProof (req : Request) : M jsval :=
  try_catch
    (let endpoint := "/api/v3/account" in
     timestamp <- Date_now ;;
     let queryString := "timestamp=" +:+ ToString (JNum timestamp) in
     signature <- createSignature queryString
                    (field (body req) "api_secret") ;;
     result <- generateProof
                 ("https://api.binance.com" +:+ endpoint +:+ "?" +:+
                  queryString +:+ "&signature=" +:+ signature)
                 [ {| m_type := regex;
                      m_value := dq +:+ "asset" +:+ dq +:+ ":\s*" +:+ dq +:+
                                 ToString (field (body req) "asset") +:+
                                 dq +:+ ",\s*" +:+ dq +:+ "free" +:+ dq +:+
                                 ":\s*" +:+ dq +:+ "(?<amount>[\d.]+)" +:+
                                 dq |} ]
                 (field (body req) "api_key") ;;
     match result with
     | Failure error => respond (Send 400 (JStr error))
     | Success data => respond (Json 200 data)
     end)
    (fun e =>
       console_log e ;;;
       respond (Send 500 e)).

(** [app.post('/debugproxy')], lines 283-325. Every branch returns an
    object literal; [res] is not used. *)
Definition debugproxy (req : Request) : M jsval :=
  try_catch
    (proof <- zkFetch "https://browserleaks.com/ip" "GET" None None None ;;
     if negb (truthy proof) then
       ret (Result_obj (Failure "Failed to generate proof"))
     else
       isValid <- verifySignedProof proof ;;
       if negb (truthy isValid) then
         ret (Result_obj (Failure "Proof is invalid"))
       else
         proofData <- transformForOnchain proof ;;
         ret (Result_obj
                (Success
                   (JObj [("transformedProof", proofData);
                          ("proof", proof)]))))
    (fun err =>
       console_log err ;;;
       ret (Result_obj (Failure (errorMessage_of err)))).

(** The routes of the application. *)
Inductive Route :=
  | GET_root
  | POST_generateUSDMTradeProof
  | POST_generateAssetProof
  | POST_debugproxy.

Definition handler (r : Route) : Request -> M jsval :=
  match r with
  | GET_root => get_root
  | POST_generateUSDMTradeProof => generateUSDMTradeProof
  | POST_generateAssetProof => generateAssetProof
  | POST_debugproxy => debugproxy
  end.

(** Express serves a request: a fresh [res], then the handler. Express 4
    drops the promise an [async] handler returns: [Normal v] is a handler
    that returned [v], [Throw e] one whose promise was rejected, with
    nobody to catch it. The client sees [response] of the final state, if
    any. *)
Definition serve (r : Route) (req : Request) : M jsval :=
  fun s => handler r req (set_response None s).

End Program.

(** ** src/unnamed/part_000

    The second copy of the application in the repository. It has no cache,
    reads the time for a signed request from the local clock only, and its
    [generateProof] passes other retry parameters and prints nothing.
    [createSignature], [generateProofWithoutContext], the asset-proof
    handler and the debug handler read as in [src/index.ts]. *)
Module Earlier.
Section Program.

Variable H : Host.

(** [generateProof], lines 37-86. *)
Definition generateProof (url : string) (matches : list Match)
    (apiKey : jsval) : M Result :=
  try_catch
    (proof <- zkFetch H url "GET"
                (Some {| so_headers := [("X-MBX-APIKEY", apiKey)];
                         so_responseMatches := Some matches |})
                (Some 20) (Some 2000) ;;
     if negb (truthy proof) then
       ret (Failure "Failed to generate proof")
     else
       isValid <- verifySignedProof H proof ;;
       if negb (truthy isValid) then
         ret (Failure "Proof is invalid")
       else
         proofData <- transformForOnchain H proof ;;
         ret (Success
                (JObj [("transformedProof", proofData); ("proof", proof)])))
    (fun err => ret (Failure (errorMessage_of err))).

(** [app.get('/')], lines 136-158. *)
Definition get_root (req : Request) : M jsval :=
  let endpoint := "/fapi/v1/userTrades" in
  timestamp <- Date_now H ;;
  let queryString :=
    "timestamp=" +:+ ToString (JNum timestamp) +:+
    "&symbol=" +:+ ToString (field (query req) "symbol") +:+
    "&recvWindow=60000" in
  signature <- createSignature H queryString (API_SECRET H) ;;
  try_catch
    (resp <- axios_get H
               ("https://fapi.binance.com" +:+ endpoint +:+ "?" +:+
                queryString +:+ "&signature=" +:+ signature)
               (Some [("X-MBX-APIKEY", API_KEY H)]) ;;
     data <- get_prop resp "data" ;;
     respond (Render "trades" (JObj [("trades", data)])))
    (fun error => respond (Json 500 (JObj [("error", error)]))).

(** [app.post('/generateUSDMTradeProof')], lines 160-188. *)
Definition generateUSDMTradeProof (req : Request) : M jsval :=
  try_catch
    (let endpoint := "/fapi/v1/userTrades" in
     timestamp <- Date_now H ;;
     let queryString :=
       "timestamp=" +:+ ToString (JNum timestamp) +:+
       "&symbol=" +:+ ToString (field (body req) "symbol") +:+
       "&orderId=" +:+ ToString (field (body req) "order_id") +:+
       "&recvWindow=60000" in
     signature <- createSignature H queryString
                    (field (body req) "api_secret") ;;
     result <- generateProof
                 ("https://fapi.binance.com" +:+ endpoint +:+ "?" +:+
                  queryString +:+ "&signature=" +:+ signature)
                 [ {| m_type := regex;
                      m_value := dq +:+ "orderId" +:+ dq +:+
                                 ":\s*(?<orderId>[\d.]+)" |} ]
                 (field (body req) "api_key") ;;
     match result with
     | Failure error =>
         console_log (Result_obj result) ;;;
         respond (Send 400 (JStr error))
     | Success data => respond (Json 200 data)
     end)
    (fun e =>
       console_log e ;;;
       respond (Send 500 e)).

(** [app.post('/generateAssetProof')], lines 190-217. *)
Definition generateAssetProof (req : Request) : M jsval :=
  try_catch
    (let endpoint := "/api/v3/account" in
     timestamp <- Date_now H ;;
     let queryString := "timestamp=" +:+ ToString (JNum timestamp) in
     signature <- createSignature H queryString
                    (field (body req) "api_secret") ;;
     result <- generateProof
                 ("https://api.binance.com" +:+ endpoint +:+ "?" +:+
                  queryString +:+ "&signature=" +:+ signature)
                 [ {| m_type := regex;
                      m_value := dq +:+ "asset" +:+ dq +:+ ":\s*" +:+ dq +:+
                                 ToString (field (body req) "asset") +:+
                                 dq +:+ ",\s*" +:+ dq +:+ "free" +:+ dq +:+
                                 ":\s*" +:+ dq +:+ "(?<amount>[\d.]+)" +:+
                                 dq |} ]
                 (field (body req) "api_key") ;;
     match result with
     | Failure error => respond (Send 400 (JStr error))
     | Success data => respond (Json 200 data)
     end)
    (fun e =>
       console_log e ;;;
       respond (Send 500 e)).

Definition handler (r : Route) : Request -> M jsval :=
  match r with
  | GET_root => get_root
  | POST_generateUSDMTradeProof => generateUSDMTradeProof
  | POST_generateAssetProof => generateAssetProof
  | POST_debugproxy => debugproxy H
  end.

Definition serve (r : Route) (req : Request) : M jsval :=
  fun s => handler r req (set_response None s).

End Program.
End Earlier.


(** * Vocabulary of the properties *)

(** ** Hexadecimal digests *)

Definition is_lower_hex (c : ascii) : bool :=
  match index 0 (String c EmptyString) "0123456789abcdef" with
  | Some _ => true
  | None => false
  end.

Fixpoint all_chars (p : ascii -> bool) (s : string) : bool :=
  match s with
  | EmptyString => true
  | String c rest => p c && all_chars p rest
  end.

(** The inverse of [hex_byte] on two digits. *)
Definition unhex_byte (hi lo : ascii) : option byte :=
  match index 0 (String hi EmptyString) "0123456789abcdef",
        index 0 (String lo EmptyString) "0123456789abcdef" with
  | Some h, Some l => Byte.of_N (N.of_nat (16 * h + l))
  | _, _ => None
  end.

(** Reading a hexadecimal string back: two digits per byte, high nibble
    first, each digit by its place in [0123456789abcdef]; [None] for a
    string of odd length or with another character. *)
Fixpoint unhex (s : string) : option (list byte) :=
  match s with
  | EmptyString => Some []
  | String hi (String lo rest) =>
      match unhex_byte hi lo, unhex rest with
      | Some b, Some bytes => Some (b :: bytes)
      | _, _ => None
      end
  | String _ EmptyString => None
  end.

(** ** Runs *)

(** [wp m Q s]: the run of [m] from [s] ends in a completion and a state
    that satisfy [Q]. Every computation of [M] is a total function, so
    this speaks of a run that does end. *)
Definition wp {A : Type} (m : M A) (Q : completion A -> State -> Prop)
    (s : State) : Prop :=
  Q (fst (m s)) (snd (m s)).

(** A [Result] that a handler returns as its value. *)
Definition Result_completion (c : completion Result) : completion jsval :=
  match c with
  | Normal r => Normal (Result_obj r)
  | Throw e => Throw e
  end.

(** ** The proof flow *)

(** The calls of [zkFetch] in the source, one per call site. *)
Definition generateProof_call (url : string) (matches : list Match)
    (apiKey : jsval) : ZkCall :=
  {| zk_url := url; zk_method := "GET";
     zk_secretOptions :=
       Some {| so_headers := [("X-MBX-APIKEY", apiKey)];
               so_responseMatches := Some matches |};
     zk_retries := Some 3; zk_retryInterval := Some 5000 |}.

Definition generateProofWithoutContext_call (url : string) (apiKey : jsval)
    : ZkCall :=
  {| zk_url := url; zk_method := "GET";
     zk_secretOptions :=
       Some {| so_headers := [("X-MBX-APIKEY", apiKey)];
               so_responseMatches := None |};
     zk_retries := None; zk_retryInterval := None |}.

Definition debugproxy_call : ZkCall :=
  {| zk_url := "https://browserleaks.com/ip"; zk_method := "GET";
     zk_secretOptions := None;
     zk_retries := None; zk_retryInterval := None |}.

(** The four ways a fetch can go, in the words of the error taxonomy. *)
Definition no_proof (fetched : completion jsval) : Prop :=
  exists proof, fetched = Normal proof /\ truthy proof = false.

Definition invalid_proof (H : Host) (fetched : completion jsval) : Prop :=
  exists proof isValid,
    fetched = Normal proof /\ truthy proof = true /\
    verifySignedProof_reply H proof = Normal isValid /\
    truthy isValid = false.

Definition step_threw (H : Host) (fetched : completion jsval) (e : jsval)
    : Prop :=
  fetched = Throw e \/
  (exists proof,
      fetched = Normal proof /\ truthy proof = true /\
      verifySignedProof_reply H proof = Throw e) \/
  (exists proof isValid,
      fetched = Normal proof /\ truthy proof = true /\
      verifySignedProof_reply H proof = Normal isValid /\
      truthy isValid = true /\
      transformForOnchain_reply H proof = Throw e).

Definition proved (H : Host) (fetched : completion jsval)
    (proof proofData : jsval) : Prop :=
  exists isValid,
    fetched = Normal proof /\ truthy proof = true /\
    verifySignedProof_reply H proof = Normal isValid /\
    truthy isValid = true /\
    transformForOnchain_reply H proof = Normal proofData.

(** The steps after the fetch, case by case: the result, and what the
    [catch] block printed. *)
Inductive proof_flow (H : Host) (fetched : completion jsval)
    : Result -> list jsval -> Prop :=
  | flow_threw e :
      step_threw H fetched e ->
      proof_flow H fetched (Failure (errorMessage_of e)) [e]
  | flow_no_proof :
      no_proof fetched ->
      proof_flow H fetched (Failure "Failed to generate proof") []
  | flow_invalid :
      invalid_proof H fetched ->
      proof_flow H fetched (Failure "Proof is invalid") []
  | flow_proved proof proofData :
      proved H fetched proof proofData ->
      proof_flow H fetched
        (Success (JObj [("transformedProof", proofData); ("proof", proof)]))
        [].

(** The state a run of the flow leaves: the call in the prover's log, the
    caught error, if any, on the console. *)
Definition after_flow (call : ZkCall) (logged : list jsval) (s : State)
    : State :=
  set_console (console s ++ logged) (set_zk_log (zk_log s ++ [call]) s).

(** ** The trade-proof route *)

Definition trade_key (H : Host) (req : Request) : string :=
  generateCacheKey H (field (body req) "api_key")
    (field (body req) "symbol") (field (body req) "order_id").

Definition trade_queryString (req : Request) (timestamp : jsval) : string :=
  "timestamp=" +:+ ToString timestamp +:+
  "&symbol=" +:+ ToString (field (body req) "symbol") +:+
  "&orderId=" +:+ ToString (field (body req) "order_id") +:+
  "&recvWindow=60000".

Definition trade_matches : list Match :=
  [ {| m_type := regex;
       m_value := dq +:+ "orderId" +:+ dq +:+ ":\s*(?<orderId>[\d.]+)" |} ].

Definition trade_call (H : Host) (req : Request) (timestamp : jsval)
    (secret : string) : ZkCall :=
  generateProof_call
    ("https://fapi.binance.com" +:+ "/fapi/v1/userTrades" +:+ "?" +:+
     trade_queryString req timestamp +:+ "&signature=" +:+
     hex (crypto_hmac_sha256 H secret (trade_queryString req timestamp)))
    trade_matches (field (body req) "api_key").

(** The object [writeCache] stores. *)
Definition cache_entry (data : jsval) (cachedAt : Z) : jsval :=
  JObj [("data", data); ("cachedAt", JNum cachedAt)].

(** What [readCache] gives for the key of a request. *)
Definition cache_of (H : Host) (req : Request) (s : State)
    : completion jsval :=
  match files s !! trade_key H req with
  | Some text => JSON_parse H text
  | None => Normal JNull
  end.

(** What a trade-proof request that misses the cache ends in. *)
Inductive trade_miss (H : Host) (req : Request) (s s' : State) : Prop :=
  | miss_no_signature e :
      (forall key, field (body req) "api_secret" <> JStr key) ->
      response s' = Some (Send 500 e) ->
      files s' = files s -> zk_log s' = zk_log s ->
      trade_miss H req s s'
  | miss_failure timestamp secret error logged :
      let call := trade_call H req timestamp secret in
      field (body req) "api_secret" = JStr secret ->
      proof_flow H (zkFetch_reply H (zk_log s) call) (Failure error) logged ->
      response s' = Some (Send 400 (JStr error)) ->
      files s' = files s ->
      zk_log s' = (zk_log s ++ [call])%list ->
      trade_miss H req s s'
  | miss_success timestamp secret data logged :
      let call := trade_call H req timestamp secret in
      let cachedAt := clock H (S (clock_reads s)) in
      field (body req) "api_secret" = JStr secret ->
      proof_flow H (zkFetch_reply H (zk_log s) call) (Success data) logged ->
      response s' = Some (Json 200 data) ->
      files s' =
        <[trade_key H req := JSON_stringify H (cache_entry data cachedAt)]>
          (files s) ->
      zk_log s' = (zk_log s ++ [call])%list ->
      trade_miss H req s s'.

(** ** The asset-proof route *)

Definition asset_queryString (timestamp : Z) : string :=
  "timestamp=" +:+ ToString (JNum timestamp).

Definition asset_matches (req : Request) : list Match :=
  [ {| m_type := regex;
       m_value := dq +:+ "asset" +:+ dq +:+ ":\s*" +:+ dq +:+
                  ToString (field (body req) "asset") +:+
                  dq +:+ ",\s*" +:+ dq +:+ "free" +:+ dq +:+
                  ":\s*" +:+ dq +:+ "(?<amount>[\d.]+)" +:+ dq |} ].

Definition asset_call (H : Host) (req : Request) (timestamp : Z)
    (secret : string) : ZkCall :=
  generateProof_call
    ("https://api.binance.com" +:+ "/api/v3/account" +:+ "?" +:+
     asset_queryString timestamp +:+ "&signature=" +:+
     hex (crypto_hmac_sha256 H secret (asset_queryString timestamp)))
    (asset_matches req) (field (body req) "api_key").

(** What an asset-proof request ends in. *)
Inductive asset_outcome (H : Host) (req : Request) (s s' : State) : Prop :=
  | asset_no_signature e :
      (forall key, field (body req) "api_secret" <> JStr key) ->
      response s' = Some (Send 500 e) ->
      files s' = files s -> zk_log s' = zk_log s ->
      asset_outcome H req s s'
  | asset_failure secret error logged :
      let call := asset_call H req (clock H (clock_reads s)) secret in
      field (body req) "api_secret" = JStr secret ->
      proof_flow H (zkFetch_reply H (zk_log s) call) (Failure error) logged ->
      response s' = Some (Send 400 (JStr error)) ->
      files s' = files s ->
      zk_log s' = (zk_log s ++ [call])%list ->
      asset_outcome H req s s'
  | asset_success secret data logged :
      let call := asset_call H req (clock H (clock_reads s)) secret in
      field (body req) "api_secret" = JStr secret ->
      proof_flow H (zkFetch_reply H (zk_log s) call) (Success data) logged ->
      response s' = Some (Json 200 data) ->
      files s' = files s ->
      zk_log s' = (zk_log s ++ [call])%list ->
      asset_outcome H req s s'.

(** ** The trades view *)

Definition time_call : AxiosCall :=
  {| ax_url := "https://fapi.binance.com" +:+ "/fapi/v1/time";
     ax_headers := None |}.

Definition root_queryString (req : Request) (timestamp : jsval) : string :=
  "timestamp=" +:+ ToString timestamp +:+
  "&symbol=" +:+ ToString (field (query req) "symbol") +:+
  "&recvWindow=60000".

Definition root_call (H : Host) (req : Request) (timestamp : jsval)
    (secret : string) : AxiosCall :=
  {| ax_url := "https://fapi.binance.com" +:+ "/fapi/v1/userTrades" +:+
               "?" +:+ root_queryString req timestamp +:+ "&signature=" +:+
               hex (crypto_hmac_sha256 H secret
                      (root_queryString req timestamp));
     ax_headers := Some [("X-MBX-APIKEY", API_KEY H)] |}.

(** What a request for the trades view ends in. *)
Inductive root_outcome (H : Host) (req : Request) (s : State)
    (c : completion jsval) (s' : State) : Prop :=
  | root_no_time error :
      c = Normal JUndefined ->
      response s' = Some (Json 500 (JObj [("error", error)])) ->
      axios_log s' = (axios_log s ++ [time_call])%list ->
      root_outcome H req s c s'
  | root_no_signature e :
      (forall key, API_SECRET H <> JStr key) ->
      c = Throw e ->
      response s' = None ->
      axios_log s' = (axios_log s ++ [time_call])%list ->
      root_outcome H req s c s'
  | root_answered timestamp secret r :
      API_SECRET H = JStr secret ->
      c = Normal JUndefined ->
      response s' = Some r ->
      (forall status body, r <> Send status body) ->
      axios_log s' =
        (axios_log s ++ [time_call; root_call H req timestamp secret])%list ->
      root_outcome H req s c s'.

(** ** Signed requests, in the words of the specification *)

(** A query string: the parameters in their order, [k=v] joined by [&]. *)
Fixpoint serialize_query (params : list (string * string)) : string :=
  match params with
  | [] => EmptyString
  | [(k, v)] => k +:+ "=" +:+ v
  | (k, v) :: rest => k +:+ "=" +:+ v +:+ "&" +:+ serialize_query rest
  end.

(** A signed request: the signature is the keyed hash of the serialized
    query, appended after it. *)
Definition signed_url (H : Host) (base path : string)
    (params : list (string * string)) (secret : string) : string :=
  base +:+ path +:+ "?" +:+ serialize_query params +:+ "&signature=" +:+
  hex (crypto_hmac_sha256 H secret (serialize_query params)).

(** The pieces of a string between separators. *)
Fixpoint split_on (sep : ascii) (s : string) : list string :=
  match s with
  | EmptyString => [EmptyString]
  | String c rest =>
      if Ascii.eqb c sep then EmptyString :: split_on sep rest
      else match split_on sep rest with
           | [] => [String c EmptyString]
           | piece :: pieces => String c piece :: pieces
           end
  end.

(** The parameter names of a query string, in their order. *)
Definition query_keys (queryString : string) : list string :=
  List.map (fun piece => List.hd EmptyString (split_on "=" piece))
    (split_on "&" queryString).

(** The field order of the specification: [timestamp] first, [recvWindow]
    last. *)
Definition fixed_field_order (queryString : string) : bool :=
  match query_keys queryString with
  | [] => false
  | first :: _ =>
      String.eqb first "timestamp" &&
      String.eqb (List.last (query_keys queryString) EmptyString)
        "recvWindow"
  end.

(** One attempt, no retry: the call leaves both parameters out. *)
Definition single_attempt (c : ZkCall) : Prop :=
  zk_retries c = None /\ zk_retryInterval c = None.

(** The retry parameters a route passes to the prover. *)
Definition retry_policy (r : Route) (c : ZkCall) : Prop :=
  match r with
  | GET_root => False
  | POST_generateUSDMTradeProof | POST_generateAssetProof =>
      zk_retries c = Some 3 /\ zk_retryInterval c = Some 5000
  | POST_debugproxy => single_attempt c
  end.

(** ** A concrete host

    A small stand-in for the libraries, used to run the program on
    concrete requests: digests that copy their input, a JSON printer for
    values without characters to escape, a parser that knows the texts of a
    table of values, a prover that always answers. *)

Definition bytes_of_string (s : string) : list byte :=
  List.map byte_of_ascii (list_ascii_of_string s).

Fixpoint json_text (v : jsval) : string :=
  match v with
  | JUndefined | JNull => "null"
  | JBool true => "true"
  | JBool false => "false"
  | JNum n => pretty n
  | JStr s => dq +:+ s +:+ dq
  | JArr items =>
      "[" +:+
      (fix join (xs : list jsval) : string :=
         match xs with
         | [] => EmptyString
         | [x] => json_text x
         | x :: rest => json_text x +:+ "," +:+ join rest
         end) items +:+ "]"
  | JObj fields =>
      "{" +:+
      (fix join (xs : list (string * jsval)) : string :=
         match xs with
         | [] => EmptyString
         | [(k, x)] => dq +:+ k +:+ dq +:+ ":" +:+ json_text x
         | (k, x) :: rest =>
             dq +:+ k +:+ dq +:+ ":" +:+ json_text x +:+ "," +:+ join rest
         end) fields +:+ "}"
  | JError _ _ => "{}"
  end.

Definition parse_from (table : list jsval) (text : string)
    : completion jsval :=
  match List.find (fun v => String.eqb (json_text v) text) table with
  | Some v => Normal v
  | None => Throw (JError "SyntaxError" "Unexpected end of JSON input")
  end.

Definition demo_proof : jsval :=
  JObj [("identifier", JStr "0x01"); ("signatures", JArr [JStr "0xaa"])].

Definition demo_data : jsval :=
  JObj [("transformedProof", JObj [("signedClaim", demo_proof)]);
        ("proof", demo_proof)].

Definition demo_entry : jsval :=
  JObj [("data", demo_data); ("cachedAt", JNum 1700000000001)].

Definition demo_host : Host :=
  {| crypto_md5 := bytes_of_string;
     crypto_hmac_sha256 := fun key data => bytes_of_string (key +:+ data);
     JSON_parse := parse_from [demo_entry];
     JSON_stringify := json_text;
     clock := fun n => 1700000000000 + Z.of_nat n;
     axios_reply := fun _ _ =>
       Normal (JObj [("data", JObj [("serverTime", JNum 1700000000500)])]);
     zkFetch_reply := fun _ _ => Normal demo_proof;
     verifySignedProof_reply := fun _ => Normal (JBool true);
     transformForOnchain_reply := fun p => Normal (JObj [("signedClaim", p)]);
     API_KEY := JStr "key";
     API_SECRET := JStr "secret" |}.

(** The same host with another prover. *)
Definition with_prover (reply : list ZkCall -> ZkCall -> completion jsval)
    (H : Host) : Host :=
  {| crypto_md5 := crypto_md5 H;
     crypto_hmac_sha256 := crypto_hmac_sha256 H;
     JSON_parse := JSON_parse H;
     JSON_stringify := JSON_stringify H;
     clock := clock H;
     axios_reply := axios_reply H;
     zkFetch_reply := reply;
     verifySignedProof_reply := verifySignedProof_reply H;
     transformForOnchain_reply := transformForOnchain_reply H;
     API_KEY := API_KEY H;
     API_SECRET := API_SECRET H |}.

Definition empty_state : State :=
  {| files := ∅; zk_log := []; axios_log := []; clock_reads := 0;
     console := []; response := None |}.

Definition demo_request : Request :=
  {| query := [("symbol", JStr "BTCUSDT")];
     body := [("api_key", JStr "k"); ("api_secret", JStr "s");
              ("symbol", JStr "BTCUSDT"); ("order_id", JNum 123);
              ("asset", JStr "BTC")] |}.


(** The demo request under another secret. *)
Definition demo_request_other_secret : Request :=
  {| query := [];
     body := [("api_key", JStr "k"); ("api_secret", JStr "not the secret");
              ("symbol", JStr "BTCUSDT"); ("order_id", JNum 123)] |}.

(** A cache directory whose entry for the demo request was cut short. *)
Definition corrupt_cache_state : State :=
  set_files (<[trade_key demo_host demo_request := "{"]> ∅) empty_state.

(** A prover that attests only when it is given no private options. *)
Definition prover_reading_private_options : Host :=
  with_prover
    (fun _ call =>
       match zk_secretOptions call with
       | None => Normal demo_proof
       | Some _ => Normal JUndefined
       end)
    demo_host.

(** ** Vocabulary of the further properties *)

(** [v.k] as a value: reading a property neither reads nor changes the
    state. *)
Definition prop_of (v : jsval) (k : string) : completion jsval :=
  fst (get_prop v k empty_state).

(** [cache.data] for a truthy [cache]. *)
Definition data_of (cache : jsval) : jsval :=
  match cache with
  | JObj fields => field fields "data"
  | _ => JUndefined
  end.

(** The timestamp the trade-proof route signs: [serverTime] of the
    exchange's reply, or the reading of the local clock taken before if the
    request or one of the two property reads threw. *)
Definition trade_timestamp (H : Host) (s : State) : jsval :=
  let now := JNum (clock H (clock_reads s)) in
  match axios_reply H (axios_log s) time_call with
  | Throw _ => now
  | Normal timeResp =>
      match prop_of timeResp "data" with
      | Throw _ => now
      | Normal data =>
          match prop_of data "serverTime" with
          | Throw _ => now
          | Normal servTime => servTime
          end
      end
  end.

(** The values whose conversion to a string is [ToString] for certain: the
    primitives, with the integers that a JavaScript number holds exactly.
    An array or an object is left out: its conversion runs its own
    [toString], which a JSON object may hide behind a property of that
    name, and then throws. *)
Definition plain (v : jsval) : bool :=
  match v with
  | JUndefined | JNull | JBool _ | JStr _ => true
  | JNum n => Z.abs n <? 2 ^ 53
  | JArr _ | JObj _ | JError _ _ => false
  end.

(** A character that is no path separator. *)
Definition not_separator (c : ascii) : bool :=
  negb (Ascii.eqb c "/") && negb (Ascii.eqb c "\").

(** The answers the two proof routes give. *)
Definition proof_route_answer (r : Response) : Prop :=
  (exists data, r = Json 200 data) \/
  (exists error, r = Send 400 (JStr error)) \/
  (exists e, r = Send 500 e).

(** The calls of the copy in [src/unnamed/part_000]. *)
Definition earlier_generateProof_call (url : string) (matches : list Match)
    (apiKey : jsval) : ZkCall :=
  {| zk_url := url; zk_method := "GET";
     zk_secretOptions :=
       Some {| so_headers := [("X-MBX-APIKEY", apiKey)];
               so_responseMatches := Some matches |};
     zk_retries := Some 20; zk_retryInterval := Some 2000 |}.

Definition earlier_trade_queryString (req : Request) (timestamp : Z)
    : string :=
  "timestamp=" +:+ ToString (JNum timestamp) +:+
  "&symbol=" +:+ ToString (field (body req) "symbol") +:+
  "&orderId=" +:+ ToString (field (body req) "order_id") +:+
  "&recvWindow=60000".

Definition earlier_trade_call (H : Host) (req : Request) (timestamp : Z)
    (secret : string) : ZkCall :=
  earlier_generateProof_call
    ("https://fapi.binance.com" +:+ "/fapi/v1/userTrades" +:+ "?" +:+
     earlier_trade_queryString req timestamp +:+ "&signature=" +:+
     hex (crypto_hmac_sha256 H secret (earlier_trade_queryString req timestamp)))
    trade_matches (field (body req) "api_key").

Definition earlier_root_queryString (req : Request) (timestamp : Z)
    : string :=
  "timestamp=" +:+ ToString (JNum timestamp) +:+
  "&symbol=" +:+ ToString (field (query req) "symbol") +:+
  "&recvWindow=60000".

Definition earlier_root_call (H : Host) (req : Request) (timestamp : Z)
    (secret : string) : AxiosCall :=
  {| ax_url := "https://fapi.binance.com" +:+ "/fapi/v1/userTrades" +:+
               "?" +:+ earlier_root_queryString req timestamp +:+
               "&signature=" +:+
               hex (crypto_hmac_sha256 H secret
                      (earlier_root_queryString req timestamp));
     ax_headers := Some [("X-MBX-APIKEY", API_KEY H)] |}.

(** ** More hosts and requests to run the program on *)

(** The same host with another JSON parser. *)
Definition with_parser (parse : string -> completion jsval) (H : Host)
    : Host :=
  {| crypto_md5 := crypto_md5 H;
     crypto_hmac_sha256 := crypto_hmac_sha256 H;
     JSON_parse := parse;
     JSON_stringify := JSON_stringify H;
     clock := clock H;
     axios_reply := axios_reply H;
     zkFetch_reply := zkFetch_reply H;
     verifySignedProof_reply := verifySignedProof_reply H;
     transformForOnchain_reply := transformForOnchain_reply H;
     API_KEY := API_KEY H;
     API_SECRET := API_SECRET H |}.

(** The same host with other replies to axios. *)
Definition with_axios
    (reply : list AxiosCall -> AxiosCall -> completion jsval) (H : Host)
    : Host :=
  {| crypto_md5 := crypto_md5 H;
     crypto_hmac_sha256 := crypto_hmac_sha256 H;
     JSON_parse := JSON_parse H;
     JSON_stringify := JSON_stringify H;
     clock := clock H;
     axios_reply := reply;
     zkFetch_reply := zkFetch_reply H;
     verifySignedProof_reply := verifySignedProof_reply H;
     transformForOnchain_reply := transformForOnchain_reply H;
     API_KEY := API_KEY H;
     API_SECRET := API_SECRET H |}.

(** The same host with another [BINANCE_API_SECRET]. *)
Definition with_env_secret (secret : jsval) (H : Host) : Host :=
  {| crypto_md5 := crypto_md5 H;
     crypto_hmac_sha256 := crypto_hmac_sha256 H;
     JSON_parse := JSON_parse H;
     JSON_stringify := JSON_stringify H;
     clock := clock H;
     axios_reply := axios_reply H;
     zkFetch_reply := zkFetch_reply H;
     verifySignedProof_reply := verifySignedProof_reply H;
     transformForOnchain_reply := transformForOnchain_reply H;
     API_KEY := API_KEY H;
     API_SECRET := secret |}.

(** A host whose parser also knows a few values that are no entries. *)
Definition lenient_host : Host :=
  with_parser
    (parse_from [demo_entry; JNull; JNum 0; JNum 7; JStr "x";
                 JObj [("cachedAt", JNum 1)]])
    demo_host.

(** A host that cannot reach the exchange. *)
Definition offline_host : Host :=
  with_axios (fun _ _ => Throw (JError "Error" "connect ECONNREFUSED"))
    demo_host.


(** A host started without [BINANCE_API_SECRET]. *)
Definition host_without_env_secret : Host :=
  with_env_secret JUndefined demo_host.

(** The demo request without [api_secret]. *)
Definition demo_request_without_secret : Request :=
  {| query := [("symbol", JStr "BTCUSDT")];
     body := [("api_key", JStr "k"); ("symbol", JStr "BTCUSDT");
              ("order_id", JNum 123); ("asset", JStr "BTC")] |}.

(** The cache directory with one file for the demo request. *)
Definition state_with_cache_file (text : string) : State :=
  set_files (<[trade_key demo_host demo_request := text]> ∅) empty_state.

(** * Lemmas *)

(** ** Hexadecimal digests *)

Lemma unhex_hex_byte (b : byte) :
  exists hi lo,
    hex_byte b = String hi (String lo EmptyString) /\
    unhex_byte hi lo = Some b /\
    is_lower_hex hi = true /\ is_lower_hex lo = true.
Proof.
  destruct b; do 2 eexists; (split; [reflexivity | repeat split]).
Qed.

Lemma hex_cons (b : byte) (rest : list byte) :
  exists hi lo,
    hex (b :: rest) = String hi (String lo (hex rest)) /\
    unhex_byte hi lo = Some b /\
    is_lower_hex hi = true /\ is_lower_hex lo = true.
Proof.
  destruct (unhex_hex_byte b) as (hi & lo & E & U & L1 & L2).
  exists hi, lo. cbn [hex]. rewrite E. auto.
Qed.

Lemma hex_inj (xs ys : list byte) : hex xs = hex ys -> xs = ys.
Proof.
  revert ys. induction xs as [|x xs IH]; intros [|y ys] E.
  - reflexivity.
  - destruct (hex_cons y ys) as (hi & lo & Ey & _). rewrite Ey in E.
    discriminate.
  - destruct (hex_cons x xs) as (hi & lo & Ex & _). rewrite Ex in E.
    discriminate.
  - destruct (hex_cons x xs) as (hi & lo & Ex & Ux & _).
    destruct (hex_cons y ys) as (hi' & lo' & Ey & Uy & _).
    rewrite Ex, Ey in E. injection E as -> -> E.
    rewrite Ux in Uy. injection Uy as ->. f_equal. auto.
Qed.

Lemma hex_lower (xs : list byte) : all_chars is_lower_hex (hex xs) = true.
Proof.
  induction xs as [|x xs IH]; [reflexivity|].
  destruct (hex_cons x xs) as (hi & lo & -> & _ & L1 & L2).
  cbn [all_chars]. rewrite L1, L2, IH. reflexivity.
Qed.

Lemma hex_length (xs : list byte) :
  String.length (hex xs) = (2 * List.length xs)%nat.
Proof.
  induction xs as [|x xs IH]; [reflexivity|].
  destruct (hex_cons x xs) as (hi & lo & -> & _).
  cbn [String.length List.length]. rewrite IH. lia.
Qed.

Lemma unhex_hex (xs : list byte) : unhex (hex xs) = Some xs.
Proof.
  induction xs as [|x xs IH]; [reflexivity|].
  destruct (hex_cons x xs) as (hi & lo & -> & U & _).
  cbn [unhex]. rewrite U, IH. reflexivity.
Qed.

Lemma append_length (s t : string) :
  String.length (s +:+ t) = (String.length s + String.length t)%nat.
Proof. induction s as [|c s IH]; simpl; [reflexivity | f_equal; exact IH]. Qed.

Lemma append_inj_r (u s t : string) : s +:+ u = t +:+ u -> s = t.
Proof.
  revert t. induction s as [|c s IH]; intros [|d t] E.
  - reflexivity.
  - apply (f_equal String.length) in E.
    rewrite !append_length in E. simpl in E. lia.
  - apply (f_equal String.length) in E.
    rewrite !append_length in E. simpl in E. lia.
  - simpl in E. injection E as -> E. f_equal. auto.
Qed.

(** ** Rules for runs *)

Lemma wp_ret {A} (a : A) Q s : Q (Normal a) s -> wp (ret a) Q s.
Proof. exact (fun q => q). Qed.

Lemma wp_bind {A B} (m : M A) (k : A -> M B) Q s :
  wp m (fun c s' =>
          match c with
          | Normal a => wp (k a) Q s'
          | Throw e => Q (Throw e) s'
          end) s ->
  wp (bind m k) Q s.
Proof.
  unfold wp, bind. destruct (m s) as [[a|e] s']; simpl; auto.
Qed.

Lemma wp_try {A} (m : M A) (h : jsval -> M A) Q s :
  wp m (fun c s' =>
          match c with
          | Normal a => Q (Normal a) s'
          | Throw e => wp (h e) Q s'
          end) s ->
  wp (try_catch m h) Q s.
Proof.
  unfold wp, try_catch. destruct (m s) as [[a|e] s']; simpl; auto.
Qed.

Lemma wp_try_or_return {A B} (m : M A) (h : jsval -> M B) (k : A -> M B)
    Q s :
  wp m (fun c s' =>
          match c with
          | Normal a => wp (k a) Q s'
          | Throw e => wp (h e) Q s'
          end) s ->
  wp (try_or_return m h k) Q s.
Proof.
  unfold wp, try_or_return. destruct (m s) as [[a|e] s']; simpl; auto.
Qed.

Lemma wp_mono {A} (m : M A) (Q Q' : completion A -> State -> Prop) s :
  wp m Q s -> (forall c s', Q c s' -> Q' c s') -> wp m Q' s.
Proof. unfold wp. auto. Qed.

Lemma wp_run {A} (m : M A) Q s c s' : m s = (c, s') -> Q c s' -> wp m Q s.
Proof. unfold wp. intros ->. auto. Qed.

Lemma wp_elim {A} (m : M A) Q s :
  wp m Q s -> exists c s', m s = (c, s') /\ Q c s'.
Proof. unfold wp. destruct (m s) as [c s']. eauto. Qed.

Lemma wp_get_prop v k Q s : (forall c, Q c s) -> wp (get_prop v k) Q s.
Proof. intros HQ. unfold wp. destruct v; simpl; apply HQ. Qed.

Lemma get_prop_truthy v k s :
  truthy v = true -> exists d, get_prop v k s = (Normal d, s).
Proof. destruct v; simpl; unfold ret; try discriminate; eauto. Qed.

Lemma wp_console_log v Q s :
  Q (Normal tt) (set_console (console s ++ [v]) s) -> wp (console_log v) Q s.
Proof. exact (fun q => q). Qed.

Lemma wp_respond r Q s :
  response s = None ->
  Q (Normal JUndefined) (set_response (Some r) s) -> wp (respond r) Q s.
Proof. unfold wp, respond. intros ->. auto. Qed.

Section Rules.

Variable H : Host.

Lemma wp_Date_now Q s :
  Q (Normal (clock H (clock_reads s)))
    (set_clock_reads (S (clock_reads s)) s) ->
  wp (Date_now H) Q s.
Proof. exact (fun q => q). Qed.

Lemma wp_axios_get url headers Q s :
  let call := {| ax_url := url; ax_headers := headers |} in
  Q (axios_reply H (axios_log s) call)
    (set_axios_log (axios_log s ++ [call]) s) ->
  wp (axios_get H url headers) Q s.
Proof. exact (fun q => q). Qed.

Lemma wp_readCache f Q s :
  Q (match files s !! f with
     | Some data => JSON_parse H data
     | None => Normal JNull
     end) s ->
  wp (readCache H f) Q s.
Proof. unfold wp, readCache. destruct (files s !! f); auto. Qed.

Lemma wp_writeCache f data Q s :
  Q (Normal tt)
    (set_files
       (<[f := JSON_stringify H
                 (cache_entry data (clock H (clock_reads s)))]> (files s))
       (set_clock_reads (S (clock_reads s)) s)) ->
  wp (writeCache H f data) Q s.
Proof. exact (fun q => q). Qed.

Lemma wp_createSignature q secret Q s :
  (forall key,
      secret = JStr key -> Q (Normal (hex (crypto_hmac_sha256 H key q))) s) ->
  ((forall key, secret <> JStr key) -> forall e, Q (Throw e) s) ->
  wp (createSignature H q secret) Q s.
Proof.
  intros H1 H2. unfold wp.
  destruct secret; simpl; try (apply H2; congruence).
  apply H1. reflexivity.
Qed.

Lemma wp_serve r req Q s :
  wp (handler H r req) Q (set_response None s) -> wp (serve H r req) Q s.
Proof. exact (fun q => q). Qed.

(** ** The proof flow *)

Lemma after_flow_nil call s :
  after_flow call [] s = set_zk_log (zk_log s ++ [call]) s.
Proof.
  unfold after_flow, set_console. simpl. rewrite app_nil_r.
  reflexivity.
Qed.

Lemma proof_flow_fun fetched r1 l1 r2 l2 :
  proof_flow H fetched r1 l1 -> proof_flow H fetched r2 l2 ->
  r1 = r2 /\ l1 = l2.
Proof.
  intros F1 F2.
  destruct F1, F2; unfold no_proof, invalid_proof, step_threw, proved in *;
    repeat match goal with
           | X : exists _, _ |- _ => destruct X
           | X : _ /\ _ |- _ => destruct X
           | X : _ \/ _ |- _ => destruct X
           end;
    split; congruence.
Qed.

Ltac flow_cases s call :=
  destruct (zkFetch_reply H (zk_log s) call) as [proof|e] eqn:Efetch;
  [ destruct (truthy proof) eqn:Eproof;
    [ destruct (verifySignedProof_reply H proof) as [isValid|e] eqn:Everify;
      [ destruct (truthy isValid) eqn:Evalid;
        [ destruct (transformForOnchain_reply H proof) as [proofData|e]
            eqn:Etransform | ] | ] | ] | ].

Ltac flow_close := repeat split; first [eassumption | reflexivity].

Ltac flow_state := rewrite ?after_flow_nil; reflexivity.

(** Runs the flow on each of the six branches of [flow_cases]. *)
Ltac flow_run s call :=
  flow_cases s call; simpl; do 2 eexists;
  [ split; [apply flow_proved; eexists; flow_close | flow_state]
  | split; [apply flow_threw; right; right; do 2 eexists; flow_close
           | flow_state]
  | split; [apply flow_invalid; do 2 eexists; flow_close | flow_state]
  | split; [apply flow_threw; right; left; eexists; flow_close | flow_state]
  | split; [apply flow_no_proof; eexists; flow_close | flow_state]
  | split; [apply flow_threw; left; reflexivity | flow_state] ].

Lemma generateProof_run url matches apiKey s :
  let call := generateProof_call url matches apiKey in
  exists r logged,
    proof_flow H (zkFetch_reply H (zk_log s) call) r logged /\
    generateProof H url matches apiKey s =
      (Normal r, after_flow call logged s).
Proof.
  intros call.
  unfold generateProof, try_catch, bind, zkFetch, verifySignedProof,
    transformForOnchain, console_log, ret.
  fold (generateProof_call url matches apiKey). fold call.
  flow_run s call.
Qed.

Lemma generateProofWithoutContext_run url apiKey s :
  let call := generateProofWithoutContext_call url apiKey in
  exists r logged,
    proof_flow H (zkFetch_reply H (zk_log s) call) r logged /\
    generateProofWithoutContext H url apiKey s =
      (Normal r, after_flow call logged s).
Proof.
  intros call.
  unfold generateProofWithoutContext, try_catch, bind, zkFetch,
    verifySignedProof, transformForOnchain, console_log, ret.
  fold (generateProofWithoutContext_call url apiKey). fold call.
  flow_run s call.
Qed.

Lemma debugproxy_run req s :
  exists r logged,
    proof_flow H (zkFetch_reply H (zk_log s) debugproxy_call) r logged /\
    serve H POST_debugproxy req s =
      (Normal (Result_obj r),
       after_flow debugproxy_call logged (set_response None s)).
Proof.
  unfold serve, handler, debugproxy, try_catch, bind, zkFetch,
    verifySignedProof, transformForOnchain, console_log, ret.
  fold debugproxy_call.
  change (zk_log (set_response None s)) with (zk_log s).
  flow_run s debugproxy_call.
Qed.

Lemma wp_generateProof url matches apiKey Q s :
  let call := generateProof_call url matches apiKey in
  (forall r logged,
      proof_flow H (zkFetch_reply H (zk_log s) call) r logged ->
      Q (Normal r) (after_flow call logged s)) ->
  wp (generateProof H url matches apiKey) Q s.
Proof.
  intros call HQ.
  destruct (generateProof_run url matches apiKey s)
    as (r & logged & Hflow & E).
  eapply wp_run; [exact E | auto].
Qed.

(** ** The trade-proof route *)

Lemma readCache_run req s :
  readCache H (trade_key H req) (set_response None s) =
  (cache_of H req s, set_response None s).
Proof.
  unfold readCache, cache_of. simpl.
  destruct (files s !! trade_key H req); reflexivity.
Qed.

Lemma trade_run_hit req s cache :
  cache_of H req s = Normal cache -> truthy cache = true ->
  exists data,
    get_prop cache "data" (set_response None s) =
      (Normal data, set_response None s) /\
    serve H POST_generateUSDMTradeProof req s =
      (Normal JUndefined,
       set_response (Some (Json 200 data)) (set_response None s)).
Proof.
  intros Hcache Htruthy.
  destruct (get_prop_truthy cache "data" (set_response None s) Htruthy)
    as [data E].
  exists data. split; [exact E|].
  unfold serve, handler, generateUSDMTradeProof. fold (trade_key H req).
  unfold bind at 1. rewrite readCache_run, Hcache, Htruthy.
  unfold bind. rewrite E. reflexivity.
Qed.

Lemma trade_run_throw req s e :
  cache_of H req s = Throw e ->
  serve H POST_generateUSDMTradeProof req s = (Throw e, set_response None s).
Proof.
  intros Hcache.
  unfold serve, handler, generateUSDMTradeProof. fold (trade_key H req).
  unfold bind at 1. rewrite readCache_run, Hcache. reflexivity.
Qed.

Lemma trade_run_miss req s cache :
  cache_of H req s = Normal cache -> truthy cache = false ->
  exists s',
    serve H POST_generateUSDMTradeProof req s = (Normal JUndefined, s') /\
    trade_miss H req s s'.
Proof.
  intros Hcache Hfalsy.
  enough (wp (serve H POST_generateUSDMTradeProof req)
            (fun c s' => c = Normal JUndefined /\ trade_miss H req s s') s)
    as W.
  { apply wp_elim in W. destruct W as (c & s' & E & -> & W). eauto. }
  apply wp_serve. unfold handler, generateUSDMTradeProof.
  fold (trade_key H req).
  apply wp_bind, wp_readCache.
  change (files (set_response None s)) with (files s).
  fold (cache_of H req s). rewrite Hcache, Hfalsy.
  apply wp_try, wp_bind, wp_Date_now. cbv zeta.
  apply wp_bind.
  eapply wp_mono with
    (Q := fun c s' =>
            exists servTime,
              c = Normal servTime /\
              files s' = files s /\ zk_log s' = zk_log s /\
              response s' = None /\ clock_reads s' = S (clock_reads s)).
  { apply wp_try, wp_bind, wp_axios_get.
    destruct (axios_reply _ _ _) as [timeResp|e];
      [|apply wp_ret; eauto 10].
    apply wp_bind, wp_get_prop. intros [data|e]; [|apply wp_ret; eauto 10].
    apply wp_get_prop. intros [servTime|e]; [|apply wp_ret]; eauto 10. }
  intros c s1 (servTime & -> & Ff & Fz & Fr & Fc).
  fold (trade_queryString req servTime).
  apply wp_bind, wp_createSignature.
  - intros secret Hsecret.
    apply wp_bind, wp_generateProof. fold trade_matches.
    intros r logged Hflow.
    match type of Hflow with context [generateProof_call ?u _ _] =>
      change (generateProof_call u _ _)
        with (trade_call H req servTime secret) in *
    end.
    rewrite Fz in Hflow.
    destruct r as [data|error].
    + apply wp_bind, wp_writeCache, wp_respond; [exact Fr|].
      split; [reflexivity|].
      eapply miss_success; eauto; simpl; rewrite ?Ff, ?Fz, ?Fc; reflexivity.
    + apply wp_bind, wp_console_log, wp_respond; [exact Fr|].
      split; [reflexivity|].
      eapply miss_failure; eauto; simpl; rewrite ?Ff, ?Fz; reflexivity.
  - intros Hnot e. apply wp_bind, wp_console_log, wp_respond; [exact Fr|].
    split; [reflexivity|].
    eapply miss_no_signature; eauto.
Qed.

(** ** The asset-proof route *)

Lemma asset_run req s :
  exists s',
    serve H POST_generateAssetProof req s = (Normal JUndefined, s') /\
    asset_outcome H req s s'.
Proof.
  enough (wp (serve H POST_generateAssetProof req)
            (fun c s' => c = Normal JUndefined /\ asset_outcome H req s s') s)
    as W.
  { apply wp_elim in W. destruct W as (c & s' & E & -> & W). eauto. }
  apply wp_serve. unfold handler, generateAssetProof.
  apply wp_try. cbv zeta. apply wp_bind, wp_Date_now.
  change (clock_reads (set_response None s)) with (clock_reads s).
  fold (asset_queryString (clock H (clock_reads s))).
  apply wp_bind, wp_createSignature.
  - intros secret Hsecret.
    apply wp_bind, wp_generateProof. fold (asset_matches req).
    intros r logged Hflow.
    match type of Hflow with context [generateProof_call ?u _ _] =>
      change (generateProof_call u _ _)
        with (asset_call H req (clock H (clock_reads s)) secret) in *
    end.
    destruct r as [data|error].
    + apply wp_respond; [reflexivity|]. split; [reflexivity|].
      eapply asset_success; eauto.
    + apply wp_respond; [reflexivity|]. split; [reflexivity|].
      eapply asset_failure; eauto.
  - intros Hnot e. apply wp_bind, wp_console_log, wp_respond; [reflexivity|].
    split; [reflexivity|].
    eapply asset_no_signature; eauto.
Qed.

(** ** The trades view *)

Lemma root_run req s :
  exists c s',
    serve H GET_root req s = (c, s') /\ root_outcome H req s c s' /\
    zk_log s' = zk_log s /\ files s' = files s.
Proof.
  enough (wp (serve H GET_root req)
            (fun c s' => root_outcome H req s c s' /\
                         zk_log s' = zk_log s /\ files s' = files s) s)
    as W.
  { apply wp_elim in W. destruct W as (c & s' & E & W). eauto. }
  apply wp_serve. unfold handler, get_root. cbv zeta.
  apply wp_bind, wp_Date_now, wp_try_or_return.
  eapply wp_mono with
    (Q := fun c s' =>
            files s' = files s /\ zk_log s' = zk_log s /\
            response s' = None /\
            axios_log s' = (axios_log s ++ [time_call])%list).
  { apply wp_bind, wp_axios_get.
    destruct (axios_reply _ _ _) as [timeResp|e]; [|now auto].
    apply wp_bind, wp_get_prop. intros [data|e]; [|now auto].
    apply wp_get_prop. now auto. }
  intros c s1 (Ff & Fz & Fr & Fa). destruct c as [servTime|error].
  - fold (root_queryString req servTime).
    apply wp_bind, wp_createSignature.
    + intros secret Hsecret. apply wp_try, wp_bind, wp_axios_get.
      match goal with |- context [Build_AxiosCall ?u ?h] =>
        change (Build_AxiosCall u h) with (root_call H req servTime secret)
      end.
      assert (Hfail : forall error (s2 : State),
                 files s2 = files s -> zk_log s2 = zk_log s ->
                 response s2 = None ->
                 axios_log s2 =
                   (axios_log s ++
                    [time_call; root_call H req servTime secret])%list ->
                 wp (console_log error ;;;
                     respond (Json 500 (JObj [("error", error)])))
                   (fun c s' => root_outcome H req s c s' /\
                                zk_log s' = zk_log s /\ files s' = files s)
                   s2).
      { intros error s2 Ff2 Fz2 Fr2 Fa2.
        apply wp_bind, wp_console_log, wp_respond; [exact Fr2|].
        split; [|split; assumption].
        eapply root_answered; eauto; discriminate. }
      assert (Fa2 : (axios_log s1 ++ [root_call H req servTime secret])%list
                    = (axios_log s ++
                       [time_call; root_call H req servTime secret])%list).
      { rewrite Fa, <- app_assoc. reflexivity. }
      destruct (axios_reply _ _ _) as [resp|e]; [|now apply Hfail].
      apply wp_bind, wp_get_prop. intros [data|e]; [|now apply Hfail].
      apply wp_bind, wp_console_log, wp_respond; [exact Fr|].
      split; [|split; assumption].
      eapply root_answered; eauto; discriminate.
    + intros Hnot e. split; [|split; assumption].
      eapply root_no_signature; eauto.
  - apply wp_respond; [exact Fr|]. split; [|split; assumption].
    eapply root_no_time; eauto.
Qed.

(** ** src/unnamed/part_000 *)

Lemma earlier_generateProof_run url matches apiKey s :
  exists r,
    Earlier.generateProof H url matches apiKey s =
      (Normal r,
       set_zk_log
         (zk_log s ++
          [{| zk_url := url; zk_method := "GET";
              zk_secretOptions :=
                Some {| so_headers := [("X-MBX-APIKEY", apiKey)];
                        so_responseMatches := Some matches |};
              zk_retries := Some 20; zk_retryInterval := Some 2000 |}]) s).
Proof.
  unfold Earlier.generateProof, try_catch, bind, zkFetch, verifySignedProof,
    transformForOnchain, ret.
  destruct (zkFetch_reply H _ _) as [proof|e]; simpl; [|eauto].
  destruct (truthy proof); simpl; [|eauto].
  destruct (verifySignedProof_reply H proof) as [isValid|e]; simpl; [|eauto].
  destruct (truthy isValid); simpl; [|eauto].
  destruct (transformForOnchain_reply H proof); simpl; eauto.
Qed.

(** The copy without cache leaves the cache directory alone. *)
Lemma earlier_trade_proof_writes_nothing req s :
  files (snd (Earlier.serve H POST_generateUSDMTradeProof req s)) = files s.
Proof.
  change (wp (Earlier.handler H POST_generateUSDMTradeProof req)
            (fun _ s' => files s' = files s) (set_response None s)).
  unfold Earlier.handler, Earlier.generateUSDMTradeProof.
  apply wp_try. cbv zeta. apply wp_bind, wp_Date_now.
  apply wp_bind, wp_createSignature.
  - intros secret _. apply wp_bind.
    match goal with |- wp (Earlier.generateProof H ?u ?m ?k) _ ?s0 =>
      destruct (earlier_generateProof_run u m k s0) as [r E]
    end.
    eapply wp_run; [exact E|]. destruct r.
    + apply wp_respond; reflexivity.
    + apply wp_bind, wp_console_log, wp_respond; reflexivity.
  - intros _ e. apply wp_bind, wp_console_log, wp_respond; reflexivity.
Qed.

End Rules.

(** In the copy too the asset-proof route passes retry parameters to the
    prover: 20 retries, 2000 ms. *)
Lemma earlier_asset_proof_retry_parameters :
  List.map (fun c => (zk_retries c, zk_retryInterval c))
    (zk_log
       (snd (Earlier.serve demo_host POST_generateAssetProof demo_request
               empty_state))) =
  [(Some 20, Some 2000)].
Proof. vm_compute. reflexivity. Qed.

(** * The claims *)

(** ** The model on small inputs *)

Example ToString_of_array :
  ToString (JArr [JNum 1; JNull; JArr [JStr "a"; JBool true]; JNum (-2)]) =
  "1,,a,true,-2".
Proof. reflexivity. Qed.

Example hex_of_bytes : hex [Byte.x00; Byte.x1a; Byte.xff] = "001aff".
Proof. reflexivity. Qed.

Example trade_query_in_fixed_order :
  trade_queryString demo_request (JNum 1700000000500) =
    "timestamp=1700000000500&symbol=BTCUSDT&orderId=123&recvWindow=60000" /\
  fixed_field_order (trade_queryString demo_request (JNum 1700000000500)) =
    true.
Proof. vm_compute. split; reflexivity. Qed.

Example root_query_in_fixed_order :
  fixed_field_order (root_queryString demo_request (JNum 1700000000500)) =
  true.
Proof. vm_compute. reflexivity. Qed.

Example demo_trade_key :
  trade_key demo_host demo_request = "6b42544355534454313233.json".
Proof. vm_compute. reflexivity. Qed.

(** ** The signer *)

(** C8. [createSignature] is a pure function of its two arguments: its
    completion does not depend on the state and it leaves the state as it
    was. For a string secret it returns a string of lowercase hexadecimal
    digits, two per byte, that reads back as the HMAC-SHA256 digest of the
    query string under that secret: the signature is that digest and no
    other, and two signatures are equal exactly when the digests are. *)
Theorem createSignature_hmac_hex (H : Host) (queryString key : string)
    (secret : jsval) (s s' : State) :
  fst (createSignature H queryString secret s) =
    fst (createSignature H queryString secret s') /\
  snd (createSignature H queryString secret s) = s /\
  exists signature,
    createSignature H queryString (JStr key) s = (Normal signature, s) /\
    unhex signature = Some (crypto_hmac_sha256 H key queryString) /\
    all_chars is_lower_hex signature = true /\
    String.length signature =
      (2 * List.length (crypto_hmac_sha256 H key queryString))%nat /\
    forall queryString' key' s'',
      createSignature H queryString' (JStr key') s'' = (Normal signature, s'')
      <-> crypto_hmac_sha256 H key' queryString' =
          crypto_hmac_sha256 H key queryString.
Proof.
  split; [destruct secret; reflexivity|].
  split; [destruct secret; reflexivity|].
  exists (hex (crypto_hmac_sha256 H key queryString)).
  split; [reflexivity|]. split; [apply unhex_hex|].
  split; [apply hex_lower|]. split; [apply hex_length|].
  intros queryString' key' s''. unfold createSignature, ret. split.
  - intros E. apply hex_inj. congruence.
  - intros ->. reflexivity.
Qed.

Lemma createSignature_hmac_hex_witness :
  exists signature,
    createSignature demo_host "timestamp=1" (JStr "s") empty_state =
      (Normal signature, empty_state) /\
    unhex signature = Some (bytes_of_string "stimestamp=1").
Proof.
  destruct (createSignature_hmac_hex demo_host "timestamp=1" "s" (JStr "s")
              empty_state empty_state) as (_ & _ & signature & E & U & _).
  exists signature. split; [exact E | exact U].
Defined.

(** ** The cache key *)

(** C4, as stated, fails: the key is a hash of the three fields glued
    together, so two triples that differ only in where one field ends and
    the next begins have the same key, whatever the hash. No hash
    collision is involved: the hash is given the same input twice. *)
Lemma generateCacheKey_glued_fields_collide :
  ~ (forall (H : Host) (a s o a' s' o' : jsval),
        (a, s, o) <> (a', s', o') ->
        generateCacheKey H a s o = generateCacheKey H a' s' o' ->
        let query := ToString a +:+ ToString s +:+ ToString o in
        let query' := ToString a' +:+ ToString s' +:+ ToString o' in
        query <> query' /\ crypto_md5 H query = crypto_md5 H query').
Proof.
  intros claim.
  destruct (claim demo_host (JStr "ab") (JStr "c") (JStr "1")
              (JStr "a") (JStr "bc") (JStr "1")) as [Hne _].
  - discriminate.
  - reflexivity.
  - apply Hne. reflexivity.
Qed.

(** C4, amended. The key is a function of the concatenation of the three
    fields as strings: triples with the same concatenation (equal triples
    among them) have the same key, and triples whose concatenations have
    different MD5 digests have different keys. *)
Theorem generateCacheKey_by_concatenation (H : Host)
    (a s o a' s' o' : jsval) :
  let query := ToString a +:+ ToString s +:+ ToString o in
  let query' := ToString a' +:+ ToString s' +:+ ToString o' in
  ((a, s, o) = (a', s', o') ->
   generateCacheKey H a s o = generateCacheKey H a' s' o') /\
  (query = query' ->
   generateCacheKey H a s o = generateCacheKey H a' s' o') /\
  (crypto_md5 H query <> crypto_md5 H query' ->
   generateCacheKey H a s o <> generateCacheKey H a' s' o').
Proof.
  cbv zeta. unfold generateCacheKey. simpl.
  split; [congruence|]. split; [intros ->; reflexivity|].
  intros Hne E. apply Hne. apply hex_inj. eapply append_inj_r. exact E.
Qed.

Lemma generateCacheKey_by_concatenation_witness :
  generateCacheKey demo_host (JStr "k") (JStr "BTCUSDT") (JNum 123) =
    generateCacheKey demo_host (JStr "k") (JStr "BTCUSDT") (JStr "123") /\
  generateCacheKey demo_host (JStr "k") (JStr "BTCUSDT") (JNum 123) <>
    generateCacheKey demo_host (JStr "k") (JStr "ETHUSDT") (JNum 123).
Proof.
  split.
  - apply (generateCacheKey_by_concatenation demo_host
             (JStr "k") (JStr "BTCUSDT") (JNum 123)
             (JStr "k") (JStr "BTCUSDT") (JStr "123")).
    reflexivity.
  - apply (generateCacheKey_by_concatenation demo_host
             (JStr "k") (JStr "BTCUSDT") (JNum 123)
             (JStr "k") (JStr "ETHUSDT") (JNum 123)).
    vm_compute. discriminate.
Defined.

(** ** The trade-proof route and its cache *)

Lemma get_prop_indep v k s s' :
  fst (get_prop v k s) = fst (get_prop v k s').
Proof. destruct v; reflexivity. Qed.

(** What any trade-proof request does to the cache directory. *)
Lemma trade_files (H : Host) (req : Request) (s : State) :
  let s' := snd (serve H POST_generateUSDMTradeProof req s) in
  files s' = files s \/
  exists data timestamp secret logged,
    proof_flow H
      (zkFetch_reply H (zk_log s) (trade_call H req timestamp secret))
      (Success data) logged /\
    (exists cache, cache_of H req s = Normal cache /\ truthy cache = false) /\
    response s' = Some (Json 200 data) /\
    files s' =
      <[trade_key H req :=
          JSON_stringify H
            (cache_entry data (clock H (S (clock_reads s))))]> (files s).
Proof.
  cbv zeta. destruct (cache_of H req s) as [cache|e] eqn:Hcache.
  - destruct (truthy cache) eqn:Htruthy.
    + destruct (trade_run_hit H req s cache Hcache Htruthy) as (d & _ & ->).
      left. reflexivity.
    + destruct (trade_run_miss H req s cache Hcache Htruthy)
        as (s' & -> & Hmiss).
      simpl. destruct Hmiss; [left; assumption | left; assumption |].
      right. eauto 10.
  - rewrite (trade_run_throw H req s e Hcache). left. reflexivity.
Qed.

(** C1. If a trade-proof request was answered with status 200 and [data],
    then a later request with the same body, served while the cache file
    of its key is as that request left it, is answered with status 200 and
    the same [data], without a call to the prover and without touching the
    cache; the entry that request wrote is assumed to survive
    [JSON.parse] after [JSON.stringify]. And a request changes the cache
    directory only by storing, under its key, the data of a proof result
    that is a success: whenever the result is a failure the directory is
    as it was. *)
Theorem trade_proof_served_from_cache (H : Host) (req : Request)
    (s : State) (data : jsval) :
  let s1 := snd (serve H POST_generateUSDMTradeProof req s) in
  let entry := cache_entry data (clock H (S (clock_reads s))) in
  response s1 = Some (Json 200 data) ->
  JSON_parse H (JSON_stringify H entry) = Normal entry ->
  (forall s1' : State,
      files s1' !! trade_key H req = files s1 !! trade_key H req ->
      let run := serve H POST_generateUSDMTradeProof req s1' in
      fst run = Normal JUndefined /\
      response (snd run) = Some (Json 200 data) /\
      zk_log (snd run) = zk_log s1' /\
      files (snd run) = files s1') /\
  (forall (req' : Request) (s0 : State),
      let s0' := snd (serve H POST_generateUSDMTradeProof req' s0) in
      files s0' = files s0 \/
      exists data' timestamp secret logged,
        proof_flow H
          (zkFetch_reply H (zk_log s0) (trade_call H req' timestamp secret))
          (Success data') logged /\
        response s0' = Some (Json 200 data') /\
        files s0' =
          <[trade_key H req' :=
              JSON_stringify H
                (cache_entry data' (clock H (S (clock_reads s0))))]>
            (files s0)).
Proof.
  intros s1 entry Hok Hjson. split.
  - assert (Hcached : forall s1' : State,
               files s1' !! trade_key H req = files s1 !! trade_key H req ->
               exists cache,
                 cache_of H req s1' = Normal cache /\ truthy cache = true /\
                 forall s2, get_prop cache "data" s2 = (Normal data, s2)).
    { intros s1' Hsame. unfold cache_of. rewrite Hsame.
      subst s1. destruct (cache_of H req s) as [cache|e] eqn:Hcache.
      - destruct (truthy cache) eqn:Htruthy.
        + destruct (trade_run_hit H req s cache Hcache Htruthy)
            as (d & Hd & E).
          rewrite E in Hok |- *. simpl in Hok |- *.
          injection Hok as ->.
          unfold cache_of in Hcache. rewrite Hcache.
          exists cache. split; [reflexivity|]. split; [assumption|].
          intros s2.
          destruct (get_prop_truthy cache "data" s2 Htruthy) as [d' Hd'].
          rewrite Hd'. f_equal. f_equal.
          pose proof (get_prop_indep cache "data" s2 (set_response None s))
            as Hi.
          rewrite Hd, Hd' in Hi. simpl in Hi. congruence.
        + destruct (trade_run_miss H req s cache Hcache Htruthy)
            as (s' & E & Hmiss).
          rewrite E in Hok |- *. simpl in Hok |- *.
          destruct Hmiss as [e ? Hr|? ? ? ? ? ? ? Hr|ts secret d logged
                               call cachedAt ? ? Hr Hf];
            rewrite Hr in Hok; try discriminate.
          injection Hok as ->.
          rewrite Hf, lookup_insert_eq.
          change (cache_entry data cachedAt) with entry. rewrite Hjson.
          exists entry. split; [reflexivity|]. split; reflexivity.
      - rewrite (trade_run_throw H req s e Hcache) in Hok. discriminate. }
    intros s1' Hsame run.
    destruct (Hcached s1' Hsame) as (cache & Hcache & Htruthy & Hdata).
    destruct (trade_run_hit H req s1' cache Hcache Htruthy) as (d & Hd & E).
    rewrite Hdata in Hd. injection Hd as <-.
    subst run. rewrite E. simpl. auto.
  - intros req' s0 s0'. subst s0'.
    destruct (trade_files H req' s0) as [Hsame|Hwrote]; [left; exact Hsame|].
    destruct Hwrote as (d & ts & secret & logged & Hflow & _ & Hr & Hf).
    right. eauto 10.
Qed.

Lemma trade_proof_served_from_cache_witness :
  let first :=
    serve demo_host POST_generateUSDMTradeProof demo_request empty_state in
  let second :=
    serve demo_host POST_generateUSDMTradeProof demo_request (snd first) in
  response (snd second) = Some (Json 200 demo_data) /\
  zk_log (snd second) = zk_log (snd first).
Proof.
  intros first second.
  destruct (trade_proof_served_from_cache demo_host demo_request
              empty_state demo_data) as [Hhit _].
  - vm_compute. reflexivity.
  - vm_compute. reflexivity.
  - destruct (Hhit (snd first)) as (_ & Hr & Hz & _).
    + reflexivity.
    + split; assumption.
Defined.

(** C9. The cache key is computed from [api_key], [symbol] and [order_id]
    alone. Two trade-proof requests that agree on these three fields have
    the same key, and when the cache holds an entry for it both are served
    alike: status 200 with the data of the entry, no call to the prover,
    whatever [api_secret] either of them carries. *)
Theorem cache_hit_ignores_api_secret (H : Host) (req1 req2 : Request)
    (s : State) (cache : jsval) :
  field (body req1) "api_key" = field (body req2) "api_key" ->
  field (body req1) "symbol" = field (body req2) "symbol" ->
  field (body req1) "order_id" = field (body req2) "order_id" ->
  cache_of H req1 s = Normal cache ->
  truthy cache = true ->
  trade_key H req1 = trade_key H req2 /\
  serve H POST_generateUSDMTradeProof req1 s =
    serve H POST_generateUSDMTradeProof req2 s /\
  exists data,
    get_prop cache "data" s = (Normal data, s) /\
    response (snd (serve H POST_generateUSDMTradeProof req2 s)) =
      Some (Json 200 data) /\
    zk_log (snd (serve H POST_generateUSDMTradeProof req2 s)) = zk_log s.
Proof.
  intros Hk Hs Ho Hcache Htruthy.
  assert (Hkey : trade_key H req1 = trade_key H req2).
  { unfold trade_key. rewrite Hk, Hs, Ho. reflexivity. }
  assert (Hcache2 : cache_of H req2 s = Normal cache).
  { unfold cache_of in *. rewrite <- Hkey. exact Hcache. }
  destruct (trade_run_hit H req1 s cache Hcache Htruthy) as (d1 & Hd1 & E1).
  destruct (trade_run_hit H req2 s cache Hcache2 Htruthy) as (d2 & Hd2 & E2).
  assert (d1 = d2) by congruence. subst d2.
  split; [exact Hkey|]. split; [congruence|].
  exists d1. rewrite E2. simpl. split; [|split; reflexivity].
  destruct (get_prop_truthy cache "data" s Htruthy) as [d Hd].
  pose proof (get_prop_indep cache "data" s (set_response None s)) as Hi.
  rewrite Hd, Hd1 in Hi. simpl in Hi. congruence.
Qed.

Lemma cache_hit_ignores_api_secret_witness :
  let cached :=
    snd (serve demo_host POST_generateUSDMTradeProof demo_request
           empty_state) in
  serve demo_host POST_generateUSDMTradeProof demo_request cached =
    serve demo_host POST_generateUSDMTradeProof demo_request_other_secret
      cached /\
  response
    (snd (serve demo_host POST_generateUSDMTradeProof
            demo_request_other_secret cached)) =
    Some (Json 200 demo_data).
Proof.
  intros cached.
  destruct (cache_hit_ignores_api_secret demo_host demo_request
              demo_request_other_secret cached demo_entry)
    as (_ & Hsame & d & Hd & Hr & _).
  - reflexivity.
  - reflexivity.
  - reflexivity.
  - vm_compute. reflexivity.
  - reflexivity.
  - split; [exact Hsame|]. rewrite Hr.
    assert (Hd' : get_prop demo_entry "data" cached =
                  (Normal demo_data, cached)) by reflexivity.
    congruence.
Defined.

(** ** The error taxonomy *)




(** ** The debug route *)

(** C6 fails on the code: the handler of [/debugproxy] never uses [res].
    Whatever the prover does, it returns a result object to Express, which
    drops it, and no response is sent. *)
Theorem debugproxy_sends_no_response (H : Host) (req : Request)
    (s : State) :
  response (snd (serve H POST_debugproxy req s)) = None /\
  exists r, fst (serve H POST_debugproxy req s) = Normal (Result_obj r).
Proof.
  destruct (debugproxy_run H req s) as (r & logged & _ & E).
  rewrite E. simpl. eauto.
Qed.

(** C7 fails on the code: [readCache] is called before the [try] of the
    trade-proof handler, so the [SyntaxError] of [JSON.parse] on a
    malformed entry rejects the handler's promise, and no response is
    sent. *)
Theorem corrupt_cache_entry_escapes_handler :
  let run :=
    serve demo_host POST_generateUSDMTradeProof demo_request
      corrupt_cache_state in
  fst run = Throw (JError "SyntaxError" "Unexpected end of JSON input") /\
  response (snd run) = None /\
  zk_log (snd run) = [].
Proof. vm_compute. repeat split; reflexivity. Qed.

(** ** Calls to the prover, route by route *)

Lemma trade_calls (H : Host) (req : Request) (s : State) :
  let s' := snd (serve H POST_generateUSDMTradeProof req s) in
  zk_log s' = zk_log s \/
  exists timestamp secret,
    field (body req) "api_secret" = JStr secret /\
    zk_log s' = (zk_log s ++ [trade_call H req timestamp secret])%list.
Proof.
  cbv zeta. destruct (cache_of H req s) as [cache|e] eqn:Hcache.
  - destruct (truthy cache) eqn:Htruthy.
    + destruct (trade_run_hit H req s cache Hcache Htruthy) as (d & _ & ->).
      left. reflexivity.
    + destruct (trade_run_miss H req s cache Hcache Htruthy)
        as (s' & -> & Hmiss).
      simpl. destruct Hmiss; [left; assumption | right; eauto ..].
  - rewrite (trade_run_throw H req s e Hcache). left. reflexivity.
Qed.

Lemma asset_calls (H : Host) (req : Request) (s : State) :
  let s' := snd (serve H POST_generateAssetProof req s) in
  zk_log s' = zk_log s \/
  exists secret,
    field (body req) "api_secret" = JStr secret /\
    zk_log s' =
      (zk_log s ++ [asset_call H req (clock H (clock_reads s)) secret])%list.
Proof.
  cbv zeta. destruct (asset_run H req s) as (s' & -> & Hout).
  simpl. destruct Hout; [left; assumption | right; eauto ..].
Qed.

Lemma debugproxy_calls (H : Host) (req : Request) (s : State) :
  zk_log (snd (serve H POST_debugproxy req s)) =
    (zk_log s ++ [debugproxy_call])%list.
Proof.
  destruct (debugproxy_run H req s) as (r & logged & _ & ->).
  reflexivity.
Qed.

(** C3, as stated, fails: the asset-proof route calls the prover through
    [generateProof] too, which passes 3 retries and 5000 ms on every
    call. *)
Lemma asset_proof_passes_retry_parameters :
  ~ Forall single_attempt
      (zk_log
         (snd (serve demo_host POST_generateAssetProof demo_request
                 empty_state))).
Proof.
  intros Hall. apply Forall_inv in Hall. destruct Hall as [Hretries _].
  discriminate.
Qed.

(** C3, amended. No route calls the prover more than once for a request.
    The trades view never calls it; [/debugproxy] calls it once, without
    retry parameters; the trade-proof and the asset-proof route, when they
    call it, both do so through [generateProof], with 3 retries and a
    delay of 5000 ms. *)
Theorem retry_parameters_by_route (H : Host) (r : Route) (req : Request)
    (s : State) :
  exists new,
    zk_log (snd (serve H r req s)) = (zk_log s ++ new)%list /\
    (List.length new <= 1)%nat /\
    Forall (retry_policy r) new /\
    match r with
    | GET_root => new = []
    | POST_debugproxy => new = [debugproxy_call]
    | POST_generateUSDMTradeProof | POST_generateAssetProof => True
    end.
Proof.
  destruct r.
  - destruct (root_run H req s) as (c & s' & -> & _ & Hz & _).
    exists []. simpl. rewrite app_nil_r. auto.
  - destruct (trade_calls H req s) as [->|(ts & secret & _ & ->)].
    + exists []. rewrite app_nil_r. simpl. auto.
    + eexists [_]. split; [reflexivity|]. simpl. split; [lia|].
      split; [|exact I]. constructor; [|constructor]. split; reflexivity.
  - destruct (asset_calls H req s) as [->|(secret & _ & ->)].
    + exists []. rewrite app_nil_r. simpl. auto.
    + eexists [_]. split; [reflexivity|]. simpl. split; [lia|].
      split; [|exact I]. constructor; [|constructor]. split; reflexivity.
  - exists [debugproxy_call]. split; [apply debugproxy_calls|].
    simpl. split; [lia|]. split; [|reflexivity].
    constructor; [|constructor]. split; reflexivity.
Qed.

(** ** Signed requests *)

(** C5, as stated, fails: the query string the asset-proof route signs is
    the timestamp alone, without [recvWindow]. *)
Lemma asset_query_lacks_recvWindow :
  let queryString := "timestamp=1700000000000" in
  List.map zk_url
    (zk_log
       (snd (serve demo_host POST_generateAssetProof demo_request
               empty_state))) =
    ["https://api.binance.com/api/v3/account?" +:+ queryString +:+
     "&signature=" +:+ hex (crypto_hmac_sha256 demo_host "s" queryString)] /\
  fixed_field_order queryString = false.
Proof. vm_compute. split; reflexivity. Qed.

(** C5, amended. Every request to the exchange that a route signs has the
    URL of a signed request: the serialized parameters, then the
    signature, which is the keyed hash of exactly the serialized
    parameters. The trade-proof route signs [timestamp], [symbol],
    [orderId], [recvWindow=60000] with the [api_secret] of the body; the
    asset-proof route signs [timestamp] alone with the [api_secret] of the
    body; the trades view signs [timestamp], [symbol], [recvWindow=60000]
    with the secret of the environment. [/debugproxy] sends nothing to the
    exchange. *)
Theorem signed_requests_by_route (H : Host) (r : Route) (req : Request)
    (s : State) :
  let s' := snd (serve H r req s) in
  match r with
  | GET_root =>
      exists new,
        axios_log s' = (axios_log s ++ new)%list /\
        Forall
          (fun c =>
             c = time_call \/
             exists timestamp secret,
               API_SECRET H = JStr secret /\
               ax_headers c = Some [("X-MBX-APIKEY", API_KEY H)] /\
               ax_url c =
                 signed_url H "https://fapi.binance.com"
                   "/fapi/v1/userTrades"
                   [("timestamp", ToString timestamp);
                    ("symbol", ToString (field (query req) "symbol"));
                    ("recvWindow", "60000")] secret) new
  | POST_generateUSDMTradeProof =>
      exists new,
        zk_log s' = (zk_log s ++ new)%list /\
        Forall
          (fun c =>
             exists timestamp secret,
               field (body req) "api_secret" = JStr secret /\
               zk_url c =
                 signed_url H "https://fapi.binance.com"
                   "/fapi/v1/userTrades"
                   [("timestamp", ToString timestamp);
                    ("symbol", ToString (field (body req) "symbol"));
                    ("orderId", ToString (field (body req) "order_id"));
                    ("recvWindow", "60000")] secret) new
  | POST_generateAssetProof =>
      exists new,
        zk_log s' = (zk_log s ++ new)%list /\
        Forall
          (fun c =>
             exists secret,
               field (body req) "api_secret" = JStr secret /\
               zk_url c =
                 signed_url H "https://api.binance.com" "/api/v3/account"
                   [("timestamp", pretty (clock H (clock_reads s)))] secret)
          new
  | POST_debugproxy =>
      zk_log s' = (zk_log s ++ [debugproxy_call])%list /\
      axios_log s' = axios_log s
  end.
Proof.
  cbv zeta. destruct r.
  - destruct (root_run H req s) as (c & s' & -> & Hout & _).
    simpl. destruct Hout as [error _ _ Ha|e _ _ _ Ha|ts secret r Hs _ _ _ Ha].
    + exists [time_call]. split; [exact Ha|]. repeat constructor.
    + exists [time_call]. split; [exact Ha|]. repeat constructor.
    + exists [time_call; root_call H req ts secret]. split; [exact Ha|].
      constructor; [left; reflexivity|]. constructor; [|constructor].
      right. exists ts, secret. split; [exact Hs|]. split; reflexivity.
  - destruct (trade_calls H req s) as [->|(ts & secret & Hs & ->)].
    + exists []. rewrite app_nil_r. auto.
    + eexists [_]. split; [reflexivity|]. constructor; [|constructor].
      exists ts, secret. split; [exact Hs|reflexivity].
  - destruct (asset_calls H req s) as [->|(secret & Hs & ->)].
    + exists []. rewrite app_nil_r. auto.
    + eexists [_]. split; [reflexivity|]. constructor; [|constructor].
      exists secret. split; [exact Hs|reflexivity].
  - split; [apply debugproxy_calls|].
    destruct (debugproxy_run H req s) as (r & logged & _ & ->).
    reflexivity.
Qed.

(** ** The debug route and the variant without context *)

(** C10, as stated, fails: [/debugproxy] calls the prover without private
    options, [generateProofWithoutContext] with the API-key header, for
    every key it may be given; a prover that tells the two calls apart
    gives them different results. *)
Lemma debugproxy_is_not_the_variant :
  ~ (exists apiKey : jsval,
        forall (H : Host) (req : Request) (s : State),
          fst (serve H POST_debugproxy req s) =
            Result_completion
              (fst (generateProofWithoutContext H
                      "https://browserleaks.com/ip" apiKey s))).
Proof.
  intros [apiKey Hclaim].
  specialize (Hclaim prover_reading_private_options demo_request
                empty_state).
  vm_compute in Hclaim. discriminate.
Qed.

(** C10, amended. [/debugproxy] runs the flow of
    [generateProofWithoutContext] on the fixed URL (fetch with method GET
    and without match rules or retry parameters, null check, verification,
    transformation, the same [catch]), except that its call to the prover
    carries no private options, where the variant sends the API-key
    header. Whenever the prover answers the two calls alike, the handler
    computes the result of the variant and prints the same lines. *)
Theorem debugproxy_runs_variant_without_headers (H : Host) (req : Request)
    (apiKey : jsval) (s : State) :
  let url := "https://browserleaks.com/ip" in
  let variant_call := generateProofWithoutContext_call url apiKey in
  let variant := generateProofWithoutContext H url apiKey s in
  let debug := serve H POST_debugproxy req s in
  zkFetch_reply H (zk_log s) variant_call =
    zkFetch_reply H (zk_log s) debugproxy_call ->
  fst debug = Result_completion (fst variant) /\
  console (snd debug) = console (snd variant) /\
  files (snd debug) = files (snd variant) /\
  zk_log (snd debug) = (zk_log s ++ [debugproxy_call])%list /\
  zk_log (snd variant) = (zk_log s ++ [variant_call])%list /\
  zk_url debugproxy_call = zk_url variant_call /\
  zk_method debugproxy_call = zk_method variant_call /\
  zk_retries debugproxy_call = zk_retries variant_call /\
  zk_retryInterval debugproxy_call = zk_retryInterval variant_call /\
  zk_secretOptions debugproxy_call = None /\
  zk_secretOptions variant_call =
    Some {| so_headers := [("X-MBX-APIKEY", apiKey)];
            so_responseMatches := None |}.
Proof.
  intros url variant_call variant debug Hsame.
  destruct (debugproxy_run H req s) as (r & logged & Hflow & E).
  destruct (generateProofWithoutContext_run H url apiKey s)
    as (r' & logged' & Hflow' & E').
  fold variant_call in Hflow', E'. rewrite Hsame in Hflow'.
  destruct (proof_flow_fun H _ _ _ _ _ Hflow Hflow') as [<- <-].
  subst debug variant. rewrite E, E'. simpl.
  repeat split; reflexivity.
Qed.

Lemma debugproxy_runs_variant_without_headers_witness :
  fst (serve demo_host POST_debugproxy demo_request empty_state) =
    Result_completion
      (fst (generateProofWithoutContext demo_host
              "https://browserleaks.com/ip" (JStr "k") empty_state)).
Proof.
  apply (debugproxy_runs_variant_without_headers demo_host demo_request
           (JStr "k") empty_state).
  reflexivity.
Defined.

(** * Further properties *)

(** ** Reading properties *)

Lemma get_prop_run v k s : get_prop v k s = (prop_of v k, s).
Proof. unfold prop_of. destruct v; reflexivity. Qed.

Lemma prop_of_data cache :
  truthy cache = true -> prop_of cache "data" = Normal (data_of cache).
Proof. destruct cache; try discriminate; reflexivity. Qed.

(** ** The cache store *)

(** X1. What [writeCache] stores under a name, [readCache] reads back from
    that name: the entry just written, holding the data and the reading of
    the clock; the entry is assumed to survive [JSON.parse] after
    [JSON.stringify]. *)
Theorem writeCache_then_readCache (H : Host) (cacheFile : string)
    (data : jsval) (s : State) :
  let entry := cache_entry data (clock H (clock_reads s)) in
  let s1 := snd (writeCache H cacheFile data s) in
  JSON_parse H (JSON_stringify H entry) = Normal entry ->
  readCache H cacheFile s1 = (Normal entry, s1) /\
  prop_of entry "data" = Normal data /\
  prop_of entry "cachedAt" = Normal (JNum (clock H (clock_reads s))).
Proof.
  intros entry s1 Hjson. split; [|split; reflexivity].
  unfold readCache. subst s1. cbn [writeCache bind Date_now snd fst].
  cbn [files set_files]. rewrite lookup_insert_eq.
  fold (cache_entry data (clock H (clock_reads s))). fold entry.
  rewrite Hjson. reflexivity.
Qed.

Lemma writeCache_then_readCache_witness :
  let s := set_clock_reads 1 empty_state in
  fst (readCache demo_host "a.json"
         (snd (writeCache demo_host "a.json" demo_data s))) =
  Normal demo_entry.
Proof.
  intros s.
  destruct (writeCache_then_readCache demo_host "a.json" demo_data s)
    as [Hread _].
  - vm_compute. reflexivity.
  - rewrite Hread. reflexivity.
Defined.

(** ** The trade-proof route *)

Lemma wp_get_prop_run v k Q s : Q (prop_of v k) s -> wp (get_prop v k) Q s.
Proof. unfold wp. rewrite get_prop_run. exact (fun q => q). Qed.

(** The calls a trade-proof request makes when it misses the cache and has
    a secret to sign with. *)
Lemma trade_miss_calls (H : Host) (req : Request) (s : State)
    (cache : jsval) (secret : string) :
  cache_of H req s = Normal cache -> truthy cache = false ->
  field (body req) "api_secret" = JStr secret ->
  let s' := snd (serve H POST_generateUSDMTradeProof req s) in
  zk_log s' =
    (zk_log s ++ [trade_call H req (trade_timestamp H s) secret])%list /\
  axios_log s' = (axios_log s ++ [time_call])%list.
Proof.
  intros Hcache Hfalsy Hsecret.
  change (wp (serve H POST_generateUSDMTradeProof req)
            (fun _ s' =>
               zk_log s' =
                 (zk_log s ++
                  [trade_call H req (trade_timestamp H s) secret])%list /\
               axios_log s' = (axios_log s ++ [time_call])%list) s).
  apply wp_serve. unfold handler, generateUSDMTradeProof.
  fold (trade_key H req).
  apply wp_bind, wp_readCache.
  change (files (set_response None s)) with (files s).
  fold (cache_of H req s). rewrite Hcache, Hfalsy.
  apply wp_try, wp_bind, wp_Date_now. cbv zeta.
  apply wp_bind.
  eapply wp_mono with
    (Q := fun c s' =>
            c = Normal (trade_timestamp H s) /\
            zk_log s' = zk_log s /\ response s' = None /\
            axios_log s' = (axios_log s ++ [time_call])%list).
  { apply wp_try, wp_bind, wp_axios_get. fold time_call.
    unfold trade_timestamp.
    change (axios_log (set_clock_reads _ (set_response None s)))
      with (axios_log s).
    change (clock_reads (set_response None s)) with (clock_reads s).
    destruct (axios_reply H (axios_log s) time_call) as [timeResp|e];
      [|apply wp_ret; auto].
    apply wp_bind, wp_get_prop_run.
    destruct (prop_of timeResp "data") as [data|e]; [|apply wp_ret; auto].
    apply wp_get_prop_run.
    destruct (prop_of data "serverTime") as [servTime|e];
      [|apply wp_ret]; auto. }
  intros c s1 (-> & Fz & Fr & Fa).
  fold (trade_queryString req (trade_timestamp H s)).
  rewrite Hsecret.
  apply wp_bind, wp_createSignature; [|intros Hnot; now destruct (Hnot secret)].
  intros key [= <-].
  apply wp_bind, wp_generateProof. fold trade_matches.
  intros r logged _.
  match goal with |- context [generateProof_call ?u _ _] =>
    change (generateProof_call u _ _)
      with (trade_call H req (trade_timestamp H s) secret)
  end.
  destruct r as [data|error].
  - apply wp_bind, wp_writeCache, wp_respond; [exact Fr|].
    simpl. rewrite Fz, Fa. auto.
  - apply wp_bind, wp_console_log, wp_respond; [exact Fr|].
    simpl. rewrite Fz, Fa. auto.
Qed.



(** X4. A cache file whose content parses to any truthy value is a hit,
    entry or not: the request is answered with status 200 and the [data]
    property of the value, [undefined] if it has none, and nothing else
    happens: no call to the prover or the exchange, no clock reading, no
    line printed, no file written. *)
Theorem truthy_cache_value_is_served (H : Host) (req : Request) (s : State)
    (text : string) (cache : jsval) :
  files s !! trade_key H req = Some text ->
  JSON_parse H text = Normal cache ->
  truthy cache = true ->
  serve H POST_generateUSDMTradeProof req s =
    (Normal JUndefined,
     set_response (Some (Json 200 (data_of cache))) (set_response None s)).
Proof.
  intros Hfile Hparse Htruthy.
  assert (Hcache : cache_of H req s = Normal cache).
  { unfold cache_of. rewrite Hfile. exact Hparse. }
  destruct (trade_run_hit H req s cache Hcache Htruthy) as (d & Hd & E).
  rewrite get_prop_run, (prop_of_data cache Htruthy) in Hd.
  injection Hd as <-. exact E.
Qed.

Lemma truthy_cache_value_is_served_witness :
  let run :=
    serve lenient_host POST_generateUSDMTradeProof demo_request
      (state_with_cache_file "7") in
  response (snd run) = Some (Json 200 JUndefined) /\ zk_log (snd run) = [].
Proof.
  intros run. subst run.
  rewrite (truthy_cache_value_is_served lenient_host demo_request
             (state_with_cache_file "7") "7" (JNum 7)).
  - split; reflexivity.
  - vm_compute. reflexivity.
  - vm_compute. reflexivity.
  - reflexivity.
Defined.

(** X5. The trade-proof route answers every request whose [api_key],
    [symbol] and [order_id] are primitive values and whose cache file can
    be read: with status 200 and data, status 400 and a message, or status
    500. For such a request the one way out without an answer is a cache
    file that [JSON.parse] rejects: then the handler's promise is rejected
    with the parser's error, and nothing else has happened. *)
Theorem trade_proof_answers_unless_cache_unreadable (H : Host)
    (req : Request) (s : State) :
  let run := serve H POST_generateUSDMTradeProof req s in
  plain (field (body req) "api_key") = true ->
  plain (field (body req) "symbol") = true ->
  plain (field (body req) "order_id") = true ->
  match cache_of H req s with
  | Normal _ =>
      fst run = Normal JUndefined /\
      exists r, response (snd run) = Some r /\ proof_route_answer r
  | Throw e => run = (Throw e, set_response None s)
  end.
Proof.
  cbv zeta. intros _ _ _. unfold proof_route_answer.
  destruct (cache_of H req s) as [cache|e] eqn:Hcache.
  - destruct (truthy cache) eqn:Htruthy.
    + destruct (trade_run_hit H req s cache Hcache Htruthy) as (d & _ & ->).
      simpl. eauto 6.
    + destruct (trade_run_miss H req s cache Hcache Htruthy)
        as (s' & -> & Hmiss).
      simpl. split; [reflexivity|].
      destruct Hmiss as [e _ Hr|ts sec error logged call _ _ Hr
                        |ts sec data logged call cachedAt _ _ Hr];
        rewrite Hr; eauto 6.
  - apply trade_run_throw, Hcache.
Qed.

Lemma trade_proof_answers_unless_cache_unreadable_witness :
  fst (serve demo_host POST_generateUSDMTradeProof demo_request empty_state)
    = Normal JUndefined /\
  serve demo_host POST_generateUSDMTradeProof demo_request
    corrupt_cache_state =
    (Throw (JError "SyntaxError" "Unexpected end of JSON input"),
     set_response None corrupt_cache_state).
Proof.
  split.
  - exact (proj1 (trade_proof_answers_unless_cache_unreadable demo_host
                    demo_request empty_state eq_refl eq_refl eq_refl)).
  - exact (trade_proof_answers_unless_cache_unreadable demo_host
             demo_request corrupt_cache_state eq_refl eq_refl eq_refl).
Defined.

(** X6. A trade-proof request leaves the cache file of every other key as
    it was. *)
Theorem trade_proof_keeps_other_entries (H : Host) (req : Request)
    (s : State) (other : string) :
  other <> trade_key H req ->
  files (snd (serve H POST_generateUSDMTradeProof req s)) !! other =
    files s !! other.
Proof.
  intros Hother.
  destruct (trade_files H req s)
    as [->|(d & ts & sec & logged & _ & _ & _ & ->)]; [reflexivity|].
  apply lookup_insert_ne. congruence.
Qed.

Lemma trade_proof_keeps_other_entries_witness :
  files
    (snd (serve demo_host POST_generateUSDMTradeProof
            demo_request_without_secret
            (set_files (<["other.json" := "{"]> ∅) empty_state)))
    !! "other.json" = Some "{".
Proof.
  rewrite (trade_proof_keeps_other_entries demo_host
             demo_request_without_secret
             (set_files (<["other.json" := "{"]> ∅) empty_state)
             "other.json").
  - reflexivity.
  - vm_compute. discriminate.
Defined.



(** X8. On a cache miss of a request that carries a string [api_secret]
    and primitive values as [api_key], [symbol] and [order_id], the
    trade-proof route makes one time request and one call to the prover.
    The timestamp it signs, taken to be a primitive value, is the
    exchange's: the [serverTime] of the reply to the time request,
    whatever that property holds, [undefined] if it is missing. Only if
    the time request fails, or its reply carries no [data], the handler
    falls back on the reading of the local clock it took before. *)
Theorem trade_proof_timestamp_source (H : Host) (req : Request) (s : State)
    (cache : jsval) (secret : string) :
  let s' := snd (serve H POST_generateUSDMTradeProof req s) in
  let reply := axios_reply H (axios_log s) time_call in
  let now := JNum (clock H (clock_reads s)) in
  cache_of H req s = Normal cache -> truthy cache = false ->
  field (body req) "api_secret" = JStr secret ->
  plain (field (body req) "api_key") = true ->
  plain (field (body req) "symbol") = true ->
  plain (field (body req) "order_id") = true ->
  plain (trade_timestamp H s) = true ->
  exists timestamp,
    zk_log s' = (zk_log s ++ [trade_call H req timestamp secret])%list /\
    axios_log s' = (axios_log s ++ [time_call])%list /\
    (forall e, reply = Throw e -> timestamp = now) /\
    (forall fields,
        reply = Normal (JObj fields) ->
        match field fields "data" with
        | JObj data => timestamp = field data "serverTime"
        | JUndefined | JNull => timestamp = now
        | _ => timestamp = JUndefined
        end).
Proof.
  intros s' reply now Hcache Hfalsy Hsecret _ _ _ _.
  exists (trade_timestamp H s).
  destruct (trade_miss_calls H req s cache secret Hcache Hfalsy Hsecret)
    as [Hz Ha].
  split; [exact Hz|]. split; [exact Ha|].
  unfold trade_timestamp. fold reply. fold now.
  split.
  - intros e ->. reflexivity.
  - intros fields ->.
    change (prop_of (JObj fields) "data") with (Normal (field fields "data")).
    destruct (field fields "data") as [| | | | | |data|]; reflexivity.
Qed.

Lemma trade_proof_timestamp_source_witness :
  List.map zk_url
    (zk_log
       (snd (serve offline_host POST_generateUSDMTradeProof demo_request
               empty_state))) =
  [zk_url (trade_call offline_host demo_request (JNum 1700000000000) "s")].
Proof.
  destruct (trade_proof_timestamp_source offline_host demo_request
              empty_state JNull "s") as (ts & Hz & _ & Hthrow & _).
  - reflexivity.
  - reflexivity.
  - reflexivity.
  - reflexivity.
  - reflexivity.
  - reflexivity.
  - vm_compute. reflexivity.
  - rewrite Hz.
    rewrite (Hthrow (JError "Error" "connect ECONNREFUSED") eq_refl).
    reflexivity.
Defined.

(** X9. Without a string [api_secret] in the body no proof is asked for:
    the asset-proof route, and the trade-proof route on a cache miss,
    answer with status 500 and leave the prover and the cache alone. *)
Theorem proof_routes_need_a_string_secret (H : Host) (req : Request)
    (s : State) :
  (forall key, field (body req) "api_secret" <> JStr key) ->
  (let run := serve H POST_generateAssetProof req s in
   fst run = Normal JUndefined /\
   (exists e, response (snd run) = Some (Send 500 e)) /\
   zk_log (snd run) = zk_log s /\ files (snd run) = files s) /\
  (forall cache,
      cache_of H req s = Normal cache -> truthy cache = false ->
      let run := serve H POST_generateUSDMTradeProof req s in
      fst run = Normal JUndefined /\
      (exists e, response (snd run) = Some (Send 500 e)) /\
      zk_log (snd run) = zk_log s /\ files (snd run) = files s).
Proof.
  intros Hnot. split.
  - destruct (asset_run H req s) as (s' & -> & Hout). simpl.
    destruct Hout as [e _ Hr Hf Hz|sec error logged call Hsec
                     |sec data logged call Hsec];
      [eauto 6 | destruct (Hnot sec Hsec) ..].
  - intros cache Hcache Hfalsy.
    destruct (trade_run_miss H req s cache Hcache Hfalsy)
      as (s' & -> & Hmiss). simpl.
    destruct Hmiss as [e _ Hr Hf Hz|ts sec error logged call Hsec
                      |ts sec data logged call cachedAt Hsec];
      [eauto 6 | destruct (Hnot sec Hsec) ..].
Qed.

Lemma proof_routes_need_a_string_secret_witness :
  zk_log
    (snd (serve demo_host POST_generateAssetProof
            demo_request_without_secret empty_state)) = [] /\
  zk_log
    (snd (serve demo_host POST_generateUSDMTradeProof
            demo_request_without_secret empty_state)) = [].
Proof.
  destruct (proof_routes_need_a_string_secret demo_host
              demo_request_without_secret empty_state)
    as [(_ & _ & Hasset & _) Htrade].
  - intros key. vm_compute. discriminate.
  - split; [exact Hasset|].
    destruct (Htrade JNull) as (_ & _ & Hz & _);
      [reflexivity | reflexivity | exact Hz].
Defined.

(** ** The asset-proof route *)

(** X10. The asset-proof route answers every request, whatever the prover
    and the signer do: with status 200 and data, status 400 and a message,
    or status 500; its promise is never rejected. It knows no cache: the
    cache directory is as it was, and it sends nothing to the exchange
    itself. So every request with a string secret and a primitive value
    as [asset] asks the prover. *)
Theorem asset_proof_always_answers (H : Host) (req : Request) (s : State) :
  let run := serve H POST_generateAssetProof req s in
  fst run = Normal JUndefined /\
  (exists r, response (snd run) = Some r /\ proof_route_answer r) /\
  files (snd run) = files s /\
  axios_log (snd run) = axios_log s /\
  (forall secret,
      field (body req) "api_secret" = JStr secret ->
      plain (field (body req) "asset") = true ->
      zk_log (snd run) =
        (zk_log s ++
         [asset_call H req (clock H (clock_reads s)) secret])%list).
Proof.
  cbv zeta.
  assert (Haxios : axios_log (snd (serve H POST_generateAssetProof req s))
                   = axios_log s).
  { change (wp (serve H POST_generateAssetProof req)
              (fun _ s' => axios_log s' = axios_log s) s).
    apply wp_serve. unfold handler, generateAssetProof.
    apply wp_try. cbv zeta. apply wp_bind, wp_Date_now.
    apply wp_bind, wp_createSignature.
    - intros secret _. apply wp_bind, wp_generateProof.
      intros r logged _. destruct r; apply wp_respond; reflexivity.
    - intros _ e. apply wp_bind, wp_console_log, wp_respond; reflexivity. }
  revert Haxios.
  destruct (asset_run H req s) as (s' & -> & Hout). simpl. intros Haxios.
  unfold proof_route_answer.
  split; [reflexivity|].
  destruct Hout as [e Hnot Hr Hf Hz|sec error logged call Hsec _ Hr Hf Hz
                   |sec data logged call Hsec _ Hr Hf Hz].
  - split; [eauto 6|]. split; [exact Hf|]. split; [exact Haxios|].
    intros secret Hsecret. destruct (Hnot secret Hsecret).
  - split; [eauto 6|]. split; [exact Hf|]. split; [exact Haxios|].
    intros secret Hsecret _. rewrite Hz.
    replace secret with sec by congruence. reflexivity.
  - split; [eauto 6|]. split; [exact Hf|]. split; [exact Haxios|].
    intros secret Hsecret _. rewrite Hz.
    replace secret with sec by congruence. reflexivity.
Qed.

Lemma asset_proof_always_answers_witness :
  List.length
    (zk_log
       (snd (serve demo_host POST_generateAssetProof demo_request
               (snd (serve demo_host POST_generateAssetProof demo_request
                       empty_state))))) = 2%nat.
Proof.
  destruct (asset_proof_always_answers demo_host demo_request
              (snd (serve demo_host POST_generateAssetProof demo_request
                      empty_state))) as (_ & _ & _ & _ & Hz).
  rewrite (Hz "s" eq_refl eq_refl). reflexivity.
Defined.

(** ** The trades view *)

(** X11. The trades view has nothing to do with proofs: no request to it
    calls the prover or changes the cache directory, and it never answers
    with a plain-text body. *)
Theorem trades_view_leaves_prover_and_cache_alone (H : Host) (req : Request)
    (s : State) :
  let run := serve H GET_root req s in
  zk_log (snd run) = zk_log s /\
  files (snd run) = files s /\
  forall status body, response (snd run) <> Some (Send status body).
Proof.
  cbv zeta. destruct (root_run H req s) as (c & s' & -> & Hout & Hz & Hf).
  simpl. split; [exact Hz|]. split; [exact Hf|].
  intros status body.
  destruct Hout as [error _ Hr|e _ _ Hr|ts secret r _ _ Hr Hns];
    rewrite Hr; [discriminate | discriminate |].
  intros [= ->]. exact (Hns status body eq_refl).
Qed.

(** X12. When the time request of the trades view fails, the view answers
    with status 500 and the error, and sends no signed request: the time
    request is the only one made. (The trade-proof route goes on with the
    local clock instead, see X8.) *)
Theorem trades_view_stops_without_server_time (H : Host) (req : Request)
    (s : State) (e : jsval) :
  let run := serve H GET_root req s in
  axios_reply H (axios_log s) time_call = Throw e ->
  fst run = Normal JUndefined /\
  response (snd run) = Some (Json 500 (JObj [("error", e)])) /\
  axios_log (snd run) = (axios_log s ++ [time_call])%list /\
  console (snd run) = console s.
Proof.
  intros run Hreply.
  change (wp (serve H GET_root req)
            (fun c s' =>
               c = Normal JUndefined /\
               response s' = Some (Json 500 (JObj [("error", e)])) /\
               axios_log s' = (axios_log s ++ [time_call])%list /\
               console s' = console s) s).
  apply wp_serve. unfold handler, get_root. cbv zeta.
  apply wp_bind, wp_Date_now, wp_try_or_return, wp_bind, wp_axios_get.
  fold time_call.
  change (axios_log (set_clock_reads _ (set_response None s)))
    with (axios_log s).
  rewrite Hreply. apply wp_respond; [reflexivity|]. auto.
Qed.

Lemma trades_view_stops_without_server_time_witness :
  axios_log (snd (serve offline_host GET_root demo_request empty_state)) =
  [time_call].
Proof.
  apply (trades_view_stops_without_server_time offline_host demo_request
           empty_state (JError "Error" "connect ECONNREFUSED")).
  reflexivity.
Defined.

(** X13. Started without a string [BINANCE_API_SECRET], the trades view
    never sends a signed request: after the time request either that one
    failed and the answer is status 500, or the signer throws outside any
    [try], the handler's promise is rejected and no answer is sent. *)
Theorem trades_view_needs_the_env_secret (H : Host) (req : Request)
    (s : State) :
  let run := serve H GET_root req s in
  (forall key, API_SECRET H <> JStr key) ->
  axios_log (snd run) = (axios_log s ++ [time_call])%list /\
  ((exists e, fst run = Throw e /\ response (snd run) = None) \/
   (exists error,
       fst run = Normal JUndefined /\
       response (snd run) = Some (Json 500 (JObj [("error", error)])))).
Proof.
  intros run Hnot. subst run.
  destruct (root_run H req s) as (c & s' & -> & Hout & _). simpl.
  destruct Hout as [error Hc Hr Ha|e _ Hc Hr Ha|ts secret r Hs].
  - split; [exact Ha|]. right. eauto.
  - split; [exact Ha|]. left. eauto.
  - destruct (Hnot secret Hs).
Qed.

Lemma trades_view_needs_the_env_secret_witness :
  let run := serve host_without_env_secret GET_root demo_request
               empty_state in
  axios_log (snd run) = [time_call] /\ response (snd run) = None.
Proof.
  intros run.
  destruct (trades_view_needs_the_env_secret host_without_env_secret
              demo_request empty_state) as [Ha _].
  - intros key. discriminate.
  - split; [exact Ha|]. reflexivity.
Defined.

(** X14. With the server time and the secret at hand, both the server
    time and the [symbol] of the query being primitive values, the trades
    view sends one signed request, with the API key of the environment as
    header. It renders the view [trades] on the [data] of the reply and
    prints their JSON text; if the request fails it prints the error and
    answers with status 500 and the error. *)
Theorem trades_view_renders_the_reply (H : Host) (req : Request) (s : State)
    (timeResp data servTime : jsval) (secret : string) :
  let run := serve H GET_root req s in
  let call := root_call H req servTime secret in
  axios_reply H (axios_log s) time_call = Normal timeResp ->
  prop_of timeResp "data" = Normal data ->
  prop_of data "serverTime" = Normal servTime ->
  API_SECRET H = JStr secret ->
  plain servTime = true ->
  plain (field (query req) "symbol") = true ->
  fst run = Normal JUndefined /\
  axios_log (snd run) = (axios_log s ++ [time_call; call])%list /\
  ax_headers call = Some [("X-MBX-APIKEY", API_KEY H)] /\
  match axios_reply H (axios_log s ++ [time_call]) call with
  | Normal resp =>
      match prop_of resp "data" with
      | Normal trades =>
          response (snd run) =
            Some (Render "trades" (JObj [("trades", trades)])) /\
          console (snd run) =
            (console s ++ [JStr (JSON_stringify H trades)])%list
      | Throw e =>
          response (snd run) = Some (Json 500 (JObj [("error", e)])) /\
          console (snd run) = (console s ++ [e])%list
      end
  | Throw e =>
      response (snd run) = Some (Json 500 (JObj [("error", e)])) /\
      console (snd run) = (console s ++ [e])%list
  end.
Proof.
  intros run call Htime Hdata Hserv Hsecret _ _.
  set (upstream := axios_reply H (axios_log s ++ [time_call]) call).
  change (wp (serve H GET_root req)
            (fun c s' =>
               c = Normal JUndefined /\
               axios_log s' = (axios_log s ++ [time_call; call])%list /\
               ax_headers call = Some [("X-MBX-APIKEY", API_KEY H)] /\
               match upstream with
               | Normal resp =>
                   match prop_of resp "data" with
                   | Normal trades =>
                       response s' =
                         Some (Render "trades" (JObj [("trades", trades)])) /\
                       console s' =
                         (console s ++ [JStr (JSON_stringify H trades)])%list
                   | Throw e =>
                       response s' =
                         Some (Json 500 (JObj [("error", e)])) /\
                       console s' = (console s ++ [e])%list
                   end
               | Throw e =>
                   response s' = Some (Json 500 (JObj [("error", e)])) /\
                   console s' = (console s ++ [e])%list
               end) s).
  apply wp_serve. unfold handler, get_root. cbv zeta.
  apply wp_bind, wp_Date_now, wp_try_or_return, wp_bind, wp_axios_get.
  fold time_call.
  change (axios_log (set_clock_reads _ (set_response None s)))
    with (axios_log s).
  rewrite Htime.
  apply wp_bind, wp_get_prop_run. rewrite Hdata.
  apply wp_get_prop_run. rewrite Hserv.
  fold (root_queryString req servTime). rewrite Hsecret.
  apply wp_bind, wp_createSignature; [|intros Hnot; now destruct (Hnot secret)].
  intros key [= <-].
  apply wp_try, wp_bind, wp_axios_get.
  match goal with |- context [Build_AxiosCall ?u ?h] =>
    change (Build_AxiosCall u h) with call
  end.
  cbn [axios_log set_axios_log set_clock_reads set_response].
  fold upstream.
  assert (Hlog : ((axios_log s ++ [time_call]) ++ [call])%list =
                 (axios_log s ++ [time_call; call])%list).
  { rewrite <- app_assoc. reflexivity. }
  destruct upstream as [resp|e].
  - apply wp_bind, wp_get_prop_run.
    destruct (prop_of resp "data") as [trades|e].
    + apply wp_bind, wp_console_log, wp_respond; [reflexivity|].
      cbn. rewrite Hlog. auto.
    + apply wp_bind, wp_console_log, wp_respond; [reflexivity|].
      cbn. rewrite Hlog. auto.
  - apply wp_bind, wp_console_log, wp_respond; [reflexivity|].
    cbn. rewrite Hlog. auto.
Qed.

Lemma trades_view_renders_the_reply_witness :
  response (snd (serve demo_host GET_root demo_request empty_state)) =
  Some (Render "trades"
          (JObj [("trades", JObj [("serverTime", JNum 1700000000500)])])).
Proof.
  destruct (trades_view_renders_the_reply demo_host demo_request
              empty_state
              (JObj [("data", JObj [("serverTime", JNum 1700000000500)])])
              (JObj [("serverTime", JNum 1700000000500)])
              (JNum 1700000000500) "secret")
    as (_ & _ & _ & Hreply).
  - reflexivity.
  - reflexivity.
  - reflexivity.
  - reflexivity.
  - reflexivity.
  - reflexivity.
  - exact (proj1 Hreply).
Defined.

(** ** The cache key as a file name *)

Lemma all_chars_app (p : ascii -> bool) (s t : string) :
  all_chars p (s +:+ t) = all_chars p s && all_chars p t.
Proof.
  induction s as [|c s IH]; simpl; [reflexivity|].
  rewrite IH. apply andb_assoc.
Qed.

Lemma all_chars_weaken (p q : ascii -> bool) (s : string) :
  (forall c, p c = true -> q c = true) ->
  all_chars p s = true -> all_chars q s = true.
Proof.
  intros Hpq. induction s as [|c s IH]; simpl; [reflexivity|].
  intros [Hc Hs]%andb_prop. rewrite (Hpq c Hc). simpl. auto.
Qed.

Lemma lower_hex_not_separator (c : ascii) :
  is_lower_hex c = true -> not_separator c = true.
Proof.
  destruct c as [[] [] [] [] [] [] [] []]; vm_compute; congruence.
Qed.

(** X15. Whatever the request holds, the cache key is a plain file name:
    the digest in lowercase hexadecimal digits, two per byte, followed by
    [.json], with no path separator in it. [path.join(cacheDir, key)]
    therefore names a file directly inside the cache directory. *)
Theorem generateCacheKey_is_a_plain_file_name (H : Host)
    (apiKey symbol orderId : jsval) :
  let key := generateCacheKey H apiKey symbol orderId in
  let digest :=
    crypto_md5 H (ToString apiKey +:+ ToString symbol +:+ ToString orderId) in
  key = hex digest +:+ ".json" /\
  all_chars is_lower_hex (hex digest) = true /\
  String.length key = (2 * List.length digest + 5)%nat /\
  all_chars not_separator key = true.
Proof.
  cbv zeta. unfold generateCacheKey. simpl append at 2.
  split; [reflexivity|]. split; [apply hex_lower|].
  split.
  - rewrite append_length, hex_length. reflexivity.
  - rewrite all_chars_app. apply andb_true_intro. split; [|reflexivity].
    eapply all_chars_weaken; [apply lower_hex_not_separator|apply hex_lower].
Qed.

(** ** The proof requester *)

(** X16. A call of [generateProof] or of [generateProofWithoutContext]
    never throws and sends exactly one request to the prover. It prints
    the error of a step that threw and nothing else, and leaves the cache,
    the response, the exchange and the clock alone. *)
Theorem proof_requesters_keep_to_the_prover (H : Host) (url : string)
    (matches : list Match) (apiKey : jsval) (s : State) :
  (let run := generateProof H url matches apiKey s in
   let call := generateProof_call url matches apiKey in
   exists r logged,
     proof_flow H (zkFetch_reply H (zk_log s) call) r logged /\
     fst run = Normal r /\
     zk_log (snd run) = (zk_log s ++ [call])%list /\
     console (snd run) = (console s ++ logged)%list /\
     files (snd run) = files s /\ response (snd run) = response s /\
     axios_log (snd run) = axios_log s /\
     clock_reads (snd run) = clock_reads s) /\
  (let run := generateProofWithoutContext H url apiKey s in
   let call := generateProofWithoutContext_call url apiKey in
   exists r logged,
     proof_flow H (zkFetch_reply H (zk_log s) call) r logged /\
     fst run = Normal r /\
     zk_log (snd run) = (zk_log s ++ [call])%list /\
     console (snd run) = (console s ++ logged)%list /\
     files (snd run) = files s /\ response (snd run) = response s /\
     axios_log (snd run) = axios_log s /\
     clock_reads (snd run) = clock_reads s).
Proof.
  split; cbv zeta.
  - destruct (generateProof_run H url matches apiKey s)
      as (r & logged & Hflow & ->).
    exists r, logged. simpl. auto 10.
  - destruct (generateProofWithoutContext_run H url apiKey s)
      as (r & logged & Hflow & ->).
    exists r, logged. simpl. auto 10.
Qed.

(** ** src/unnamed/part_000 *)

(** X17. The copy without cache asks the prover on every trade-proof
    request that has a string secret and primitive values as [symbol] and
    [order_id], signing the reading of the local clock as timestamp; it
    sends nothing to the exchange itself and writes no file. *)
Theorem earlier_trade_proof_always_asks_the_prover (H : Host)
    (req : Request) (s : State) (secret : string) :
  let run := Earlier.serve H POST_generateUSDMTradeProof req s in
  field (body req) "api_secret" = JStr secret ->
  plain (field (body req) "symbol") = true ->
  plain (field (body req) "order_id") = true ->
  zk_log (snd run) =
    (zk_log s ++
     [earlier_trade_call H req (clock H (clock_reads s)) secret])%list /\
  axios_log (snd run) = axios_log s /\
  files (snd run) = files s /\
  exists r, response (snd run) = Some r /\ proof_route_answer r.
Proof.
  intros run Hsecret _ _.
  change (wp (Earlier.handler H POST_generateUSDMTradeProof req)
            (fun _ s' =>
               zk_log s' =
                 (zk_log s ++
                  [earlier_trade_call H req (clock H (clock_reads s))
                     secret])%list /\
               axios_log s' = axios_log s /\
               files s' = files s /\
               exists r, response s' = Some r /\ proof_route_answer r)
            (set_response None s)).
  unfold Earlier.handler, Earlier.generateUSDMTradeProof, proof_route_answer.
  apply wp_try. cbv zeta. apply wp_bind, wp_Date_now.
  change (clock_reads (set_response None s)) with (clock_reads s).
  fold (earlier_trade_queryString req (clock H (clock_reads s))).
  rewrite Hsecret.
  apply wp_bind, wp_createSignature; [|intros Hnot; now destruct (Hnot secret)].
  intros key [= <-]. apply wp_bind.
  match goal with |- wp (Earlier.generateProof H ?u ?m ?k) _ ?s0 =>
    destruct (earlier_generateProof_run H u m k s0) as [r E]
  end.
  eapply wp_run; [exact E|]. fold trade_matches.
  destruct r as [data|error].
  - apply wp_respond; [reflexivity|]. cbn. eauto 10.
  - apply wp_bind, wp_console_log, wp_respond; [reflexivity|]. cbn.
    eauto 10.
Qed.

Lemma earlier_trade_proof_always_asks_the_prover_witness :
  List.length
    (zk_log
       (snd (Earlier.serve demo_host POST_generateUSDMTradeProof
               demo_request
               (snd (Earlier.serve demo_host POST_generateUSDMTradeProof
                       demo_request empty_state))))) = 2%nat.
Proof.
  destruct (earlier_trade_proof_always_asks_the_prover demo_host
              demo_request
              (snd (Earlier.serve demo_host POST_generateUSDMTradeProof
                      demo_request empty_state)) "s") as [Hz _].
  - reflexivity.
  - reflexivity.
  - reflexivity.
  - rewrite Hz. reflexivity.
Defined.

(** X18. The trades view of the copy asks the exchange for no time. For a
    query whose [symbol] is a primitive value: with a string
    [BINANCE_API_SECRET] its one request is the signed one, with the
    reading of the local clock as timestamp; without, the signer throws
    before any request is made and no answer is sent. *)
Theorem earlier_trades_view_signs_local_time (H : Host) (req : Request)
    (s : State) :
  let run := Earlier.serve H GET_root req s in
  plain (field (query req) "symbol") = true ->
  match API_SECRET H with
  | JStr secret =>
      fst run = Normal JUndefined /\
      axios_log (snd run) =
        (axios_log s ++
         [earlier_root_call H req (clock H (clock_reads s)) secret])%list /\
      exists r, response (snd run) = Some r
  | _ =>
      (exists e, fst run = Throw e) /\
      axios_log (snd run) = axios_log s /\
      response (snd run) = None
  end.
Proof.
  cbv zeta. intros _.
  change (wp (Earlier.handler H GET_root req)
            (fun c s' =>
               match API_SECRET H with
               | JStr secret =>
                   c = Normal JUndefined /\
                   axios_log s' =
                     (axios_log s ++
                      [earlier_root_call H req (clock H (clock_reads s))
                         secret])%list /\
                   exists r, response s' = Some r
               | _ =>
                   (exists e, c = Throw e) /\
                   axios_log s' = axios_log s /\ response s' = None
               end) (set_response None s)).
  unfold Earlier.handler, Earlier.get_root. cbv zeta.
  apply wp_bind, wp_Date_now.
  change (clock_reads (set_response None s)) with (clock_reads s).
  fold (earlier_root_queryString req (clock H (clock_reads s))).
  apply wp_bind, wp_createSignature.
  - intros secret ->. apply wp_try, wp_bind, wp_axios_get.
    match goal with |- context [Build_AxiosCall ?u ?h] =>
      change (Build_AxiosCall u h)
        with (earlier_root_call H req (clock H (clock_reads s)) secret)
    end.
    destruct (axios_reply _ _ _) as [resp|e];
      [|apply wp_respond; [reflexivity|]; cbn; eauto].
    apply wp_bind, wp_get_prop_run.
    destruct (prop_of resp "data");
      apply wp_respond; try reflexivity; cbn; eauto.
  - intros Hnot e.
    destruct (API_SECRET H); try (cbn; eauto; fail).
    now destruct (Hnot s0).
Qed.

Lemma earlier_trades_view_signs_local_time_witness :
  axios_log (snd (Earlier.serve demo_host GET_root demo_request empty_state))
  = [earlier_root_call demo_host demo_request 1700000000000 "secret"].
Proof.
  exact (proj1 (proj2 (earlier_trades_view_signs_local_time demo_host
                         demo_request empty_state eq_refl))).
Defined.

(** ** Who writes the cache *)

(** X19. In the copy of [src/unnamed/part_000] no route, whatever the
    request holds and the services answer, changes the cache directory. *)
Theorem earlier_routes_write_no_file (H : Host) (r : Route) (req : Request)
    (s : State) :
  files (snd (Earlier.serve H r req s)) = files s.
Proof.
  destruct r.
  - change (wp (Earlier.handler H GET_root req)
              (fun _ s' => files s' = files s) (set_response None s)).
    unfold Earlier.handler, Earlier.get_root. cbv zeta.
    apply wp_bind, wp_Date_now, wp_bind, wp_createSignature;
      [|intros _ e; reflexivity].
    intros secret _. apply wp_try, wp_bind, wp_axios_get.
    destruct (axios_reply _ _ _) as [resp|e];
      [|apply wp_respond; reflexivity].
    apply wp_bind, wp_get_prop_run.
    destruct (prop_of resp "data"); apply wp_respond; reflexivity.
  - apply earlier_trade_proof_writes_nothing.
  - change (wp (Earlier.handler H POST_generateAssetProof req)
              (fun _ s' => files s' = files s) (set_response None s)).
    unfold Earlier.handler, Earlier.generateAssetProof.
    apply wp_try. cbv zeta. apply wp_bind, wp_Date_now.
    apply wp_bind, wp_createSignature.
    + intros secret _. apply wp_bind.
      match goal with |- wp (Earlier.generateProof H ?u ?m ?k) _ ?s0 =>
        destruct (earlier_generateProof_run H u m k s0) as [res E]
      end.
      eapply wp_run; [exact E|]. destruct res; apply wp_respond; reflexivity.
    + intros _ e. apply wp_bind, wp_console_log, wp_respond; reflexivity.
  - change (files (snd (serve H POST_debugproxy req s)) = files s).
    destruct (debugproxy_run H req s) as (res & logged & _ & ->).
    reflexivity.
Qed.

(** X20. In [src/index.ts] the trade-proof route is the only one that
    writes the cache: a request to any other route leaves the cache
    directory as it was. *)
Theorem only_trade_proof_writes_the_cache (H : Host) (r : Route)
    (req : Request) (s : State) :
  r <> POST_generateUSDMTradeProof ->
  files (snd (serve H r req s)) = files s.
Proof.
  intros Hr. destruct r; [| destruct (Hr eq_refl) | |].
  - destruct (root_run H req s) as (c & s' & -> & _ & _ & Hf). exact Hf.
  - destruct (asset_run H req s) as (s' & -> & Hout). simpl.
    destruct Hout; assumption.
  - destruct (debugproxy_run H req s) as (res & logged & _ & ->).
    reflexivity.
Qed.

Lemma only_trade_proof_writes_the_cache_witness :
  files
    (snd (serve demo_host POST_generateAssetProof demo_request
            (state_with_cache_file "old"))) =
  files (state_with_cache_file "old").
Proof.
  apply (only_trade_proof_writes_the_cache demo_host
           POST_generateAssetProof demo_request
           (state_with_cache_file "old")).
  discriminate.
Defined.
